(** * rodent-sim: the maze grid coordinate resolver

    A shallow embedding of [get_maze_coordinates], the function that maps a
    cell of the 13 x 13 maze lattice to model coordinates in inches.  The
    function exists twice in the repository: [src/testing.py] has the plain
    version and [src/dynamic/grid_images.py] the same body with calls to
    [log_message] added.  Both are embedded here and shown to agree on
    every pair of ints that can be written into a log message.

    Python's [float] is IEEE 754 binary64.  It is modelled by [spec_float]
    with [prec = 53] and [emax = 1024], whose operations round to nearest,
    ties to even, as the hardware does; nothing below is computed in the
    reals unless it says so ([Exact]). *)

From Stdlib Require Import ZArith QArith Qabs List Bool String Lia.
From Stdlib Require Import SpecFloat.
Import ListNotations.

Local Open Scope Z_scope.

(* ================================================================== *)
(** * Python values used by the resolver                               *)
(* ================================================================== *)

(** ** Exceptions and results *)

Inductive exn : Type :=
| ValueError (msg : string)
| KeyError.

Inductive result (A : Type) : Type :=
| Return (a : A)
| Raise (e : exn).

Arguments Return {A} a.
Arguments Raise {A} e.

(** ** Floats *)

Module PyFloat.

Definition prec : Z := 53.
Definition emax : Z := 1024.

Definition float : Type := spec_float.

Definition add : float -> float -> float := SFadd prec emax.
Definition sub : float -> float -> float := SFsub prec emax.
Definition mul : float -> float -> float := SFmul prec emax.
(** [div] is only ever applied to the non-zero divisors 8 and 4, so
    ZeroDivisionError is not modelled. *)
Definition div : float -> float -> float := SFdiv prec emax.

Definition leb : float -> float -> bool := SFleb.
Definition ltb : float -> float -> bool := SFltb.
Definition eqb : float -> float -> bool := SFeqb.

(** An [int] operand of a mixed operation is converted first; the
    conversion is exact below [2^53]. *)
Definition of_int (z : Z) : float := binary_normalize prec emax z 0 false.

(** The double nearest to [n / d]: the quotient of two integers, rounded
    once. *)
Definition ratio (n : Z) (d : positive) : float :=
  match n with
  | Z0 => S754_zero false
  | Zpos p => div (S754_finite false p 0) (S754_finite false d 0)
  | Zneg p => div (S754_finite true p 0) (S754_finite false d 0)
  end.

(** A decimal literal with [k] digits after the point: [lit 16336 3] is
    the source text [16.336], [lit 5350 2] is [53.50].  Python reads a
    literal as the double nearest to its decimal value. *)
Definition lit (n : Z) (k : nat) : float :=
  ratio n (Z.to_pos (10 ^ Z.of_nat k)).

(** [n / d] rounded to the nearest integer, ties to the even one
    ([0 < d]). *)
Definition round_half_even (n d : Z) : Z :=
  let q := n / d in
  let r := n mod d in
  match 2 * r ?= d with
  | Lt => q
  | Gt => q + 1
  | Eq => if Z.even q then q else q + 1
  end.

(** The integer [N] such that [N / 10^ndigits] is the exact value of
    [|x|] rounded to [ndigits] decimals, ties to even. *)
Definition scaled_digits (m : positive) (e : Z) (ndigits : nat) : Z :=
  match e with
  | Zneg k => round_half_even (Zpos m * 10 ^ Z.of_nat ndigits) (Z.pow_pos 2 k)
  | _ => Zpos m * 2 ^ e * 10 ^ Z.of_nat ndigits
  end.

(** [round(x, ndigits)] for [ndigits >= 0]: the exact binary value of
    [x] is rounded to [ndigits] decimals (ties to even) and the decimal
    is read back as a double.  Infinities, NaN, zeros and integral
    values come back unchanged; a value that rounds to zero keeps its
    sign. *)
Definition round (x : float) (ndigits : nat) : float :=
  match x with
  | S754_finite s m (Zneg k) =>
      match scaled_digits m (Zneg k) ndigits with
      | Z0 => S754_zero s
      | N => ratio (if s then - N else N) (Z.to_pos (10 ^ Z.of_nat ndigits))
      end
  | _ => x
  end.

(** The exact value of a float, as a rational (0 for the values that have
    none). *)
Definition to_Q (x : float) : Q :=
  match x with
  | S754_finite s m e =>
      inject_Z (if s then Zneg m else Zpos m) * Qpower (2 # 1) e
  | _ => 0%Q
  end.

(** Structural equality, which on canonical finite floats is [==]. *)
Definition same (x y : float) : bool :=
  match x, y with
  | S754_zero a, S754_zero b => Bool.eqb a b
  | S754_infinity a, S754_infinity b => Bool.eqb a b
  | S754_nan, S754_nan => true
  | S754_finite a m e, S754_finite b n f =>
      Bool.eqb a b && Pos.eqb m n && Z.eqb e f
  | _, _ => false
  end.

(** [f] is a double nearest to the rational [q]: [q] is at most half a
    unit in the last place away from it. *)
Definition nearest_to (q : Q) (f : float) : bool :=
  match f with
  | S754_finite _ m e =>
      valid_binary prec emax f
      && Qle_bool (Qabs (to_Q f - q) * (2 # 1)) (Qpower (2 # 1) e)
  | _ => false
  end.

Declare Scope pyfloat_scope.
Delimit Scope pyfloat_scope with py.
Bind Scope pyfloat_scope with float.
Infix "+" := add : pyfloat_scope.
Infix "-" := sub : pyfloat_scope.
Infix "*" := mul : pyfloat_scope.
Infix "/" := div : pyfloat_scope.

End PyFloat.

Arguments PyFloat.of_int z%_Z.
Arguments PyFloat.lit n%_Z k%_nat.

(** ** Dictionaries keyed by a pair of ints *)

Section Dict.
Context {V : Type}.

Definition key : Type := (Z * Z)%type.

Definition key_eqb (a b : key) : bool :=
  (fst a =? fst b) && (snd a =? snd b).

(** A dict display, in source order. *)
Definition dict : Type := list (key * V).

(** [k in d] *)
Definition contains (d : dict) (k : key) : bool :=
  existsb (fun kv => key_eqb (fst kv) k) d.

(** [d[k]]; [None] stands for KeyError. *)
Fixpoint getitem (d : dict) (k : key) : option V :=
  match d with
  | [] => None
  | (k', v) :: d' => if key_eqb k' k then Some v else getitem d' k
  end.
End Dict.

Arguments dict V : clear implicits.

(** The tuple [(x, y, z)] the resolver returns. *)
Definition coords : Type := (PyFloat.float * PyFloat.float * PyFloat.float)%type.

Definition x_inches (c : coords) : PyFloat.float := fst (fst c).
Definition y_inches (c : coords) : PyFloat.float := snd (fst c).
Definition z_inches (c : coords) : PyFloat.float := snd c.

(* ================================================================== *)
(** * src/testing.py                                                   *)
(* ================================================================== *)

Module Testing.
Import PyFloat.

Definition reference_points : dict (float * float) :=
  [ ((1, 1),   (lit 8039 3,   lit 10098 2));
    ((2, 2),   (lit 16336 3,  lit 92683 3));
    ((6, 2),   (lit 55519 3,  lit 92683 3));
    ((6, 6),   (lit 55519 3,  lit 5350 2));
    ((10, 2),  (lit 94702 3,  lit 92683 3));
    ((11, 1),  (lit 102999 3, lit 10098 2));
    ((2, 10),  (lit 16336 3,  lit 21973 3));
    ((1, 11),  (lit 8039 3,   lit 602 2));
    ((11, 11), (lit 102999 3, lit 602 2)) ].

Definition Z_HEIGHT : float := lit 33577 3.

Definition get_maze_coordinates (grid_x grid_y : Z) : result coords :=
  if negb ((0 <=? grid_x) && (grid_x <=? 12)
           && ((0 <=? grid_y) && (grid_y <=? 12)))
  then Raise (ValueError "Grid coordinates must be between 0 and 12")
  else
    if contains reference_points (grid_x, grid_y) then
      match getitem reference_points (grid_x, grid_y) with
      | Some (x, y) => Return (x, y, Z_HEIGHT)
      | None => Raise KeyError
      end
    else
      let x :=
        if grid_x =? 1 then lit 8039 3
        else if grid_x =? 11 then lit 102999 3
        else
          let x_step := ((lit 94702 3 - lit 16336 3) / of_int 8)%py in
          (lit 16336 3 + of_int (grid_x - 2) * x_step)%py in
      let y :=
        if grid_y =? 1 then lit 10098 2
        else if grid_y =? 11 then lit 602 2
        else
          let y_step := ((lit 92683 3 - lit 5350 2) / of_int 4)%py in
          if grid_y <=? 6 then
            (lit 92683 3 - of_int (grid_y - 2) * y_step)%py
          else
            let y_step_lower := ((lit 5350 2 - lit 21973 3) / of_int 4)%py in
            (lit 5350 2 - of_int (grid_y - 6) * y_step_lower)%py in
      Return (round x 3, round y 3, Z_HEIGHT).

End Testing.

(* ================================================================== *)
(** * src/dynamic/grid_images.py                                       *)
(* ================================================================== *)

Module GridImages.
Import PyFloat.

(** Configuration variables *)
Definition enable_logging : bool := true.

(** The three messages the resolver logs; the fields are the holes of
    the f-strings.  The timestamp that [log_message] puts in front is
    left out. *)
Inductive log_msg : Type :=
| MsgCalled (grid_x grid_y : Z)
| MsgInvalid (grid_x grid_y : Z)
| MsgCalculated (grid_x grid_y : Z) (c : coords).

(** The log file: whether appending to it succeeds, and what it holds. *)
Record log_file : Type := { writable : bool; entries : list log_msg }.

Definition new_log : log_file := {| writable := true; entries := [] |}.

(** A computation reads and extends the log and returns or raises; what
    was logged before an exception stays logged. *)
Definition M (A : Type) : Type := log_file -> result A * log_file.

Definition ret {A} (a : A) : M A := fun f => (Return a, f).

Definition raise {A} (e : exn) : M A := fun f => (Raise e, f).

Definition bind {A B} (c : M A) (k : A -> M B) : M B :=
  fun f =>
    match c f with
    | (Return a, f') => k a f'
    | (Raise e, f') => (Raise e, f')
    end.

Notation "c1 ;; c2" := (bind c1 (fun _ => c2))
  (at level 61, right associativity).

(** A failed write is caught and dropped: the log stays as it was and
    the caller goes on. *)
Definition log_message (message : log_msg) : M unit :=
  fun f =>
    if negb enable_logging then (Return tt, f)
    else if writable f
         then (Return tt, {| writable := true;
                             entries := entries f ++ [message] |})
         else (Return tt, f).

(** The interpreter's limit on the decimal digits of an int that is
    turned into text, [sys.get_int_max_str_digits()]; 4300 is CPython's
    default. *)
Definition int_max_str_digits : Z := 4300.

(** What [str] of a longer int raises. *)
Definition int_str_error : exn :=
  ValueError "Exceeds the limit (4300 digits) for integer string conversion; use sys.set_int_max_str_digits() to increase the limit".

(** [n], not negative, has at most [k] decimal digits. *)
Fixpoint fits_digits (k : nat) (n : Z) : bool :=
  match k with
  | O => n =? 0
  | S k' => if n =? 0 then true else fits_digits k' (n / 10)
  end.

(** The int can be turned into text: the sign apart, it has at most
    [int_max_str_digits] digits. *)
Definition str_fits (n : Z) : bool :=
  fits_digits (Z.to_nat int_max_str_digits) (Z.abs n).

(** [log_message(f"... {grid_x} ... {grid_y} ...")].  The f-string is
    evaluated before the call: it turns both ints into text, and raises,
    with nothing logged, when one of them is too long. *)
Definition log_ints (grid_x grid_y : Z) (message : log_msg) : M unit :=
  fun f =>
    if str_fits grid_x && str_fits grid_y then log_message message f
    else (Raise int_str_error, f).

Definition reference_points : dict (float * float) :=
  [ ((1, 1),   (lit 8039 3,   lit 10098 2));
    ((2, 2),   (lit 16336 3,  lit 92683 3));
    ((6, 2),   (lit 55519 3,  lit 92683 3));
    ((6, 6),   (lit 55519 3,  lit 5350 2));
    ((10, 2),  (lit 94702 3,  lit 92683 3));
    ((11, 1),  (lit 102999 3, lit 10098 2));
    ((2, 10),  (lit 16336 3,  lit 21973 3));
    ((1, 11),  (lit 8039 3,   lit 602 2));
    ((11, 11), (lit 102999 3, lit 602 2)) ].

Definition Z_HEIGHT : float := lit 33577 3.

Definition get_maze_coordinates (grid_x grid_y : Z) : M coords :=
  log_ints grid_x grid_y (MsgCalled grid_x grid_y) ;;
  if negb ((0 <=? grid_x) && (grid_x <=? 12)
           && ((0 <=? grid_y) && (grid_y <=? 12)))
  then
    log_ints grid_x grid_y (MsgInvalid grid_x grid_y) ;;
    raise (ValueError "Grid coordinates must be between 0 and 12")
  else
    if contains reference_points (grid_x, grid_y) then
      match getitem reference_points (grid_x, grid_y) with
      | Some (x, y) => ret (x, y, Z_HEIGHT)
      | None => raise KeyError
      end
    else
      let x :=
        if grid_x =? 1 then lit 8039 3
        else if grid_x =? 11 then lit 102999 3
        else
          let x_step := ((lit 94702 3 - lit 16336 3) / of_int 8)%py in
          (lit 16336 3 + of_int (grid_x - 2) * x_step)%py in
      let y :=
        if grid_y =? 1 then lit 10098 2
        else if grid_y =? 11 then lit 602 2
        else
          let y_step := ((lit 92683 3 - lit 5350 2) / of_int 4)%py in
          if grid_y <=? 6 then
            (lit 92683 3 - of_int (grid_y - 2) * y_step)%py
          else
            let y_step_lower := ((lit 5350 2 - lit 21973 3) / of_int 4)%py in
            (lit 5350 2 - of_int (grid_y - 6) * y_step_lower)%py in
      let coords := (round x 3, round y 3, Z_HEIGHT) in
      log_ints grid_x grid_y (MsgCalculated grid_x grid_y coords) ;;
      ret coords.

End GridImages.

(* ================================================================== *)
(** * The resolver and the vocabulary of its specification             *)
(* ================================================================== *)

(** What a caller of the resolver gets back: the outcome of
    [GridImages.get_maze_coordinates], the log put aside. *)
Definition resolve (x y : Z) : result coords :=
  fst (GridImages.get_maze_coordinates x y GridImages.new_log).

(** The one error of the specification. *)
Definition OutOfRange : exn :=
  ValueError "Grid coordinates must be between 0 and 12".

Definition Z_HEIGHT : PyFloat.float := GridImages.Z_HEIGHT.

Definition reference_points : dict (PyFloat.float * PyFloat.float) :=
  GridImages.reference_points.

Definition is_reference_cell (x y : Z) : bool :=
  contains reference_points (x, y).

(** The cells of the lattice, 0 to 12 on each axis. *)
Definition grid_range : list Z := map Z.of_nat (seq 0 13).

Definition x_of (r : result coords) : option PyFloat.float :=
  match r with Return c => Some (x_inches c) | Raise _ => None end.

Definition y_of (r : result coords) : option PyFloat.float :=
  match r with Return c => Some (y_inches c) | Raise _ => None end.

Definition z_of (r : result coords) : option PyFloat.float :=
  match r with Return c => Some (z_inches c) | Raise _ => None end.

(** ** The interpolation formulas, in float arithmetic

    These follow the specification's formulas, each operation a binary64
    operation: the step is computed first and multiplied by the offset. *)
Module Formula.
Import PyFloat.

Definition x_step : float := ((lit 94702 3 - lit 16336 3) / of_int 8)%py.
Definition y_step : float := ((lit 92683 3 - lit 5350 2) / of_int 4)%py.
Definition y_step_lower : float :=
  ((lit 5350 2 - lit 21973 3) / of_int 4)%py.

Definition x_interp (x : Z) : float :=
  (lit 16336 3 + of_int (x - 2) * x_step)%py.

Definition y_interp_upper (y : Z) : float :=
  (lit 92683 3 - of_int (y - 2) * y_step)%py.

Definition y_interp_lower (y : Z) : float :=
  (lit 5350 2 - of_int (y - 6) * y_step_lower)%py.

(** The same lines with the product taken before the division, the other
    way to read [a + (x - 2) * (b - a) / 8]. *)
Definition x_interp' (x : Z) : float :=
  (lit 16336 3 + of_int (x - 2) * (lit 94702 3 - lit 16336 3) / of_int 8)%py.

Definition y_interp_upper' (y : Z) : float :=
  (lit 92683 3 - of_int (y - 2) * (lit 92683 3 - lit 5350 2) / of_int 4)%py.

Definition y_interp_lower' (y : Z) : float :=
  (lit 5350 2 - of_int (y - 6) * (lit 5350 2 - lit 21973 3) / of_int 4)%py.

(** The lines with the steps written as the decimals 9.79575 and
    7.88175. *)
Definition x_extrap (x : Z) : float :=
  (lit 16336 3 + of_int (x - 2) * lit 979575 5)%py.

Definition y_extrap_upper (y : Z) : float :=
  (lit 92683 3 - of_int (y - 2) * lit 979575 5)%py.

Definition y_extrap_lower (y : Z) : float :=
  (lit 5350 2 - of_int (y - 6) * lit 788175 5)%py.
End Formula.

(** ** The interpolation lines, in exact arithmetic

    The same lines over the rationals, where no operation rounds, and what
    it means for a float to be such a value rounded to three decimals. *)
Module Exact.

Definition x_line (x : Z) : Q :=
  ((16336 # 1000) + inject_Z (x - 2) * ((94702 # 1000) - (16336 # 1000)) / 8)%Q.

Definition y_upper (y : Z) : Q :=
  ((92683 # 1000) - inject_Z (y - 2) * ((92683 # 1000) - (5350 # 100)) / 4)%Q.

Definition y_lower (y : Z) : Q :=
  ((5350 # 100) - inject_Z (y - 6) * ((5350 # 100) - (21973 # 1000)) / 4)%Q.

(** The number of thousandths nearest to the exact value of [f]. *)
Definition milli (f : PyFloat.float) : Z :=
  match f with
  | S754_finite s m e =>
      let N := PyFloat.scaled_digits m e 3 in if s then - N else N
  | _ => 0
  end.

(** [f] is the double written [N / 1000] for a number of thousandths [N]
    that is at most half a thousandth away from [q]. *)
Definition rounded_3dp (q : Q) (f : PyFloat.float) : Prop :=
  exists N : Z,
    f = PyFloat.lit N 3 /\ (Qabs ((N # 1000) - q) <= 1 # 2000)%Q.

Definition rounded_3dp_b (q : Q) (f : PyFloat.float) : bool :=
  let N := milli f in
  PyFloat.same f (PyFloat.lit N 3)
  && Qle_bool (Qabs ((N # 1000) - q)) (1 # 2000).

End Exact.

(** ** Each axis on its own

    The x the computed branch gives to a column and the y it gives to a
    row: the two case analyses of [get_maze_coordinates], each followed by
    its [round]. *)
Definition column_x (grid_x : Z) : PyFloat.float :=
  PyFloat.round
    (if grid_x =? 1 then PyFloat.lit 8039 3
     else if grid_x =? 11 then PyFloat.lit 102999 3
     else Formula.x_interp grid_x) 3.

Definition row_y (grid_y : Z) : PyFloat.float :=
  PyFloat.round
    (if grid_y =? 1 then PyFloat.lit 10098 2
     else if grid_y =? 11 then PyFloat.lit 602 2
     else if grid_y <=? 6 then Formula.y_interp_upper grid_y
     else Formula.y_interp_lower grid_y) 3.

(* ================================================================== *)
(** * src/testing.py: verify_coordinates                               *)
(* ================================================================== *)

Module Verify.
Import PyFloat.

(** One block of the output: the lines "Grid", "Reference" and
    "Calculated".  The heading printed before the loop is left out. *)
Record report : Type :=
  { grid : key; reference : coords; calculated : coords }.

(** The function has its own copy of the table. *)
Definition reference_points : dict (float * float) :=
  [ ((1, 1),   (lit 8039 3,   lit 10098 2));
    ((2, 2),   (lit 16336 3,  lit 92683 3));
    ((6, 2),   (lit 55519 3,  lit 92683 3));
    ((6, 6),   (lit 55519 3,  lit 5350 2));
    ((10, 2),  (lit 94702 3,  lit 92683 3));
    ((11, 1),  (lit 102999 3, lit 10098 2));
    ((2, 10),  (lit 16336 3,  lit 21973 3));
    ((1, 11),  (lit 8039 3,   lit 602 2));
    ((11, 11), (lit 102999 3, lit 602 2)) ].

(** The loop over [reference_points.items()]: what has been printed so
    far, and how the loop ends.  An exception of the resolver leaves the
    loop with the blocks printed before it. *)
Fixpoint verify_items (items : dict (float * float)) (printed : list report)
  : list report * result unit :=
  match items with
  | [] => (printed, Return tt)
  | ((grid_x, grid_y), (ref_x, ref_y)) :: rest =>
      match Testing.get_maze_coordinates grid_x grid_y with
      | Raise e => (printed, Raise e)
      | Return c =>
          verify_items rest
            (printed ++ [ {| grid := (grid_x, grid_y);
                             reference := (ref_x, ref_y, lit 33577 3);
                             calculated := c |} ])
      end
  end.

Definition verify_coordinates : list report * result unit :=
  verify_items reference_points [].

End Verify.

(* ================================================================== *)
(** * src/dynamic/grid_images.py: units and the camera                 *)
(* ================================================================== *)

Module Capture.
Import PyFloat.

Definition inches_to_cm (value_in_inches : float) : float :=
  (value_in_inches * lit 254 2)%py.

(** Constants of [capture_views]. *)
Definition EYE_SEPARATION : float := inches_to_cm (lit 5 1).
Definition EYE_HEIGHT_OFFSET : float := inches_to_cm (lit 25 1).

(** The tuple [position] that [capture_views] builds from the resolved
    inches: each component in cm, the eye height added to the third. *)
Definition position (inches_coords : coords) : coords :=
  (inches_to_cm (x_inches inches_coords),
   inches_to_cm (y_inches inches_coords),
   (inches_to_cm (z_inches inches_coords) + EYE_HEIGHT_OFFSET)%py).

(** The first two statements of the loop body of [capture_views] for one
    grid position: resolve, then convert.  An exception of the resolver
    leaves the loop. *)
Definition position_of_cell (grid_x grid_y : Z) : result coords :=
  match resolve grid_x grid_y with
  | Return inches_coords => Return (position inches_coords)
  | Raise e => Raise e
  end.

End Capture.

Module Camera.
Import PyFloat.

(** A Python number: [int] or [float]. *)
Inductive number : Type :=
| Int (z : Z)
| Float (f : float).

(** Comparison of two numbers; an int and a float are compared by value,
    without converting the int.  [None]: unordered (a NaN). *)
Definition compare (a b : number) : option comparison :=
  match a, b with
  | Int x, Int y => Some (x ?= y)
  | Float f, Float g => SFcompare f g
  | Int x, Float f =>
      match f with
      | S754_nan => None
      | S754_infinity s => Some (if s then Gt else Lt)
      | S754_zero _ => Some (x ?= 0)
      | S754_finite _ _ _ => Some (Qcompare (inject_Z x) (to_Q f))
      end
  | Float f, Int y =>
      match f with
      | S754_nan => None
      | S754_infinity s => Some (if s then Lt else Gt)
      | S754_zero _ => Some (0 ?= y)
      | S754_finite _ _ _ => Some (Qcompare (to_Q f) (inject_Z y))
      end
  end.

Definition lt (a b : number) : bool :=
  match compare a b with Some Lt => true | _ => false end.

Definition gt (a b : number) : bool :=
  match compare a b with Some Gt => true | _ => false end.

(** [min(a, b)] and [max(a, b)]: the first argument stays unless the
    second is strictly smaller, respectively larger. *)
Definition min (a b : number) : number := if lt b a then b else a.
Definition max (a b : number) : number := if gt b a then b else a.

Definition to_float (n : number) : float :=
  match n with Int z => of_int z | Float f => f end.

(** [math.pi] and [math.radians]: the argument, as a float, times the
    double [pi / 180.0]. *)
Definition pi : float := lit 314159265358979323846 20.
Definition degToRad : float := (pi / lit 1800 1)%py.
Definition radians (x : number) : float := (to_float x * degToRad)%py.

(** [set_camera_for_eye]: the clamped field of view, and the view angle
    the camera is given. *)
Definition safe_fov (vertical_fov_degrees : number) : number :=
  max (Int 1) (min (Int 150) vertical_fov_degrees).

Definition viewAngle (vertical_fov_degrees : number) : float :=
  radians (safe_fov vertical_fov_degrees).

End Camera.

(* ================================================================== *)
(** * Properties                                                       *)
(* ================================================================== *)

(** ** The lattice *)

Lemma in_grid_range (x : Z) : 0 <= x <= 12 -> In x grid_range.
Proof.
  intros H. unfold grid_range.
  replace x with (Z.of_nat (Z.to_nat x)) by lia.
  apply in_map, in_seq. lia.
Qed.

Lemma grid_forall (P : Z -> bool) :
  forallb P grid_range = true ->
  forall x, 0 <= x <= 12 -> P x = true.
Proof.
  intros H x Hx. rewrite forallb_forall in H. apply H, in_grid_range, Hx.
Qed.

Lemma grid_forall2 (P : Z -> Z -> bool) :
  forallb (fun x => forallb (P x) grid_range) grid_range = true ->
  forall x y, 0 <= x <= 12 -> 0 <= y <= 12 -> P x y = true.
Proof.
  intros H x y Hx Hy.
  apply (grid_forall (fun x => forallb (P x) grid_range) H x) in Hx.
  exact (grid_forall (P x) Hx y Hy).
Qed.

Lemma guard_in_range (x y : Z) :
  0 <= x <= 12 -> 0 <= y <= 12 ->
  negb ((0 <=? x) && (x <=? 12) && ((0 <=? y) && (y <=? 12))) = false.
Proof.
  intros Hx Hy.
  replace (0 <=? x) with true by (symmetry; apply Z.leb_le; lia).
  replace (x <=? 12) with true by (symmetry; apply Z.leb_le; lia).
  replace (0 <=? y) with true by (symmetry; apply Z.leb_le; lia).
  replace (y <=? 12) with true by (symmetry; apply Z.leb_le; lia).
  reflexivity.
Qed.

Lemma guard_out_of_range (x y : Z) :
  negb ((0 <=? x) && (x <=? 12) && ((0 <=? y) && (y <=? 12))) = true <->
  x < 0 \/ x > 12 \/ y < 0 \/ y > 12.
Proof.
  rewrite negb_true_iff, !andb_false_iff, !Z.leb_gt. lia.
Qed.

(** ** Floats *)

Lemma same_eq (a b : PyFloat.float) : PyFloat.same a b = true -> a = b.
Proof.
  destruct a as [s| s| |s m e], b as [t| t| |t n f]; simpl;
    try discriminate; try reflexivity.
  - intros H. apply eqb_prop in H. now subst.
  - intros H. apply eqb_prop in H. now subst.
  - rewrite !andb_true_iff. intros [[Hs Hm] He].
    apply eqb_prop in Hs. apply Pos.eqb_eq in Hm. apply Z.eqb_eq in He.
    now subst.
Qed.

Lemma rounded_3dp_b_sound (q : Q) (f : PyFloat.float) :
  Exact.rounded_3dp_b q f = true -> Exact.rounded_3dp q f.
Proof.
  unfold Exact.rounded_3dp_b, Exact.rounded_3dp.
  rewrite andb_true_iff. intros [Hf Hq].
  exists (Exact.milli f). split.
  - apply same_eq, Hf.
  - apply Qle_bool_iff, Hq.
Qed.

(** Every decimal literal of the resolver denotes the double nearest to
    it, and so do the two decimal steps. *)
Lemma literals_nearest :
  forallb (fun n => PyFloat.nearest_to (n # 1000) (PyFloat.lit n 3))
    [8039; 16336; 55519; 94702; 102999; 92683; 21973; 33577] = true
  /\ forallb (fun n => PyFloat.nearest_to (n # 100) (PyFloat.lit n 2))
       [10098; 5350; 602] = true
  /\ forallb (fun n => PyFloat.nearest_to (n # 100000) (PyFloat.lit n 5))
       [979575; 788175] = true.
Proof. vm_compute. repeat split. Qed.

(** ** Dictionaries *)

Lemma contains_getitem {V} (d : dict V) (k : key) :
  contains d k = true -> exists v, getitem d k = Some v.
Proof.
  induction d as [|[k' v] d IH]; simpl.
  - discriminate.
  - destruct (key_eqb k' k).
    + intros _. now exists v.
    + simpl. exact IH.
Qed.

Lemma getitem_in {V} (d : dict V) (k : key) (v : V) :
  getitem d k = Some v -> In (k, v) d.
Proof.
  induction d as [|[k' v'] d IH]; simpl.
  - discriminate.
  - destruct (key_eqb k' k) eqn:E.
    + intros [= ->]. left.
      unfold key_eqb in E. apply andb_true_iff in E as [E1 E2].
      apply Z.eqb_eq in E1, E2. destruct k, k'; simpl in *. now subst.
    + intros H. right. now apply IH.
Qed.

Lemma key_eqb_refl (k : key) : key_eqb k k = true.
Proof. unfold key_eqb. now rewrite !Z.eqb_refl. Qed.

Lemma in_contains {V} (d : dict V) (k : key) (v : V) :
  In (k, v) d -> contains d k = true.
Proof.
  intros H. unfold contains. apply existsb_exists.
  exists (k, v). split; [exact H | apply key_eqb_refl].
Qed.

(** The table has nine cells, no cell twice, all of them on the lattice. *)
Lemma reference_points_keys :
  map fst reference_points
  = [(1, 1); (2, 2); (6, 2); (6, 6); (10, 2); (11, 1); (2, 10); (1, 11); (11, 11)].
Proof. reflexivity. Qed.

Lemma reference_points_NoDup : NoDup (map fst reference_points).
Proof.
  rewrite reference_points_keys.
  repeat (constructor; [simpl; intuition congruence|]). constructor.
Qed.

Lemma reference_cell_in_range (x y : Z) :
  is_reference_cell x y = true -> 0 <= x <= 12 /\ 0 <= y <= 12.
Proof.
  unfold is_reference_cell, contains. rewrite existsb_exists.
  intros [[k v] [Hin Hk]].
  apply (in_map fst) in Hin. rewrite reference_points_keys in Hin.
  unfold key_eqb in Hk. apply andb_true_iff in Hk as [H1 H2].
  apply Z.eqb_eq in H1, H2. simpl in H1, H2, Hin.
  intuition (subst k; simpl in *; lia).
Qed.

(** ** The two copies of the resolver agree *)

Lemma log_then {A} (m : GridImages.log_msg) (c : GridImages.M A)
      (f : GridImages.log_file) :
  exists f', GridImages.bind (GridImages.log_message m) (fun _ => c) f = c f'.
Proof.
  unfold GridImages.bind, GridImages.log_message.
  destruct (negb GridImages.enable_logging); [now exists f|].
  destruct (GridImages.writable f); eexists; reflexivity.
Qed.

Ltac step_log :=
  match goal with
  | |- fst (GridImages.bind (GridImages.log_message ?m) (fun _ => ?c) ?f) = _ =>
      let f' := fresh "f" in destruct (log_then m c f) as [f' ->]
  end.

(** *** The limit on the digits of an int *)

Lemma fits_digits_spec (k : nat) (n : Z) :
  0 <= n ->
  GridImages.fits_digits k n = true <-> n < 10 ^ Z.of_nat k.
Proof.
  revert n. induction k as [|k IH]; intros n Hn.
  - cbn [GridImages.fits_digits]. change (10 ^ Z.of_nat 0) with 1.
    rewrite Z.eqb_eq. lia.
  - cbn [GridImages.fits_digits].
    rewrite Nat2Z.inj_succ, Z.pow_succ_r by lia.
    assert (P : 0 < 10 ^ Z.of_nat k) by (apply Z.pow_pos_nonneg; lia).
    destruct (Z.eqb_spec n 0) as [->|N].
    + split; [lia|reflexivity].
    + rewrite IH by (apply Z.div_pos; lia).
      pose proof (Z.div_mod n 10 ltac:(lia)) as D.
      pose proof (Z.mod_pos_bound n 10 ltac:(lia)) as B.
      lia.
Qed.

Lemma str_fits_spec (n : Z) :
  GridImages.str_fits n = true
  <-> Z.abs n < 10 ^ GridImages.int_max_str_digits.
Proof.
  unfold GridImages.str_fits.
  rewrite fits_digits_spec by apply Z.abs_nonneg.
  rewrite Z2Nat.id by (unfold GridImages.int_max_str_digits; lia).
  reflexivity.
Qed.

Lemma limit_above_100 : 100 <= 10 ^ GridImages.int_max_str_digits.
Proof.
  change 100 with (10 ^ 2). apply Z.pow_le_mono_r.
  - lia.
  - unfold GridImages.int_max_str_digits. lia.
Qed.

Lemma within_limit (n : Z) :
  Z.abs n < 100 -> Z.abs n < 10 ^ GridImages.int_max_str_digits.
Proof.
  intros H. apply Z.lt_le_trans with 100; [exact H | exact limit_above_100].
Qed.

Lemma in_range_str_fits (n : Z) :
  0 <= n <= 12 -> GridImages.str_fits n = true.
Proof. intros H. apply str_fits_spec, within_limit. lia. Qed.

Lemma over_limit_out_of_range (x y : Z) :
  10 ^ GridImages.int_max_str_digits <= Z.abs x
  \/ 10 ^ GridImages.int_max_str_digits <= Z.abs y ->
  x < 0 \/ x > 12 \/ y < 0 \/ y > 12.
Proof. pose proof limit_above_100. lia. Qed.

Lemma over_limit_not_fits (x y : Z) :
  10 ^ GridImages.int_max_str_digits <= Z.abs x
  \/ 10 ^ GridImages.int_max_str_digits <= Z.abs y ->
  GridImages.str_fits x && GridImages.str_fits y = false.
Proof.
  intros H. apply andb_false_iff.
  destruct H as [H|H]; [left|right];
    (apply not_true_is_false; rewrite str_fits_spec; lia).
Qed.

Lemma log_ints_fits (x y : Z) (m : GridImages.log_msg) :
  GridImages.str_fits x = true -> GridImages.str_fits y = true ->
  GridImages.log_ints x y m = GridImages.log_message m.
Proof.
  intros Fx Fy. unfold GridImages.log_ints. rewrite Fx, Fy. reflexivity.
Qed.

(** An int that is too long stops the call at its first statement: the
    error of the conversion, and the log as it was. *)
Lemma run_over_limit (x y : Z) (f : GridImages.log_file) :
  GridImages.str_fits x && GridImages.str_fits y = false ->
  GridImages.get_maze_coordinates x y f
  = (Raise GridImages.int_str_error, f).
Proof.
  intros F. unfold GridImages.get_maze_coordinates, GridImages.bind.
  unfold GridImages.log_ints at 1. rewrite F. reflexivity.
Qed.

Lemma tables_agree :
  GridImages.reference_points = Testing.reference_points
  /\ GridImages.Z_HEIGHT = Testing.Z_HEIGHT.
Proof. split; reflexivity. Qed.

(** Whatever the log holds, [grid_images.py] returns or raises what
    [testing.py] does, for ints that can be written into a message. *)
Lemma run_get_maze_coordinates (x y : Z) (f : GridImages.log_file) :
  GridImages.str_fits x = true -> GridImages.str_fits y = true ->
  fst (GridImages.get_maze_coordinates x y f) = Testing.get_maze_coordinates x y.
Proof.
  intros Fx Fy.
  unfold GridImages.get_maze_coordinates, Testing.get_maze_coordinates.
  cbv zeta. rewrite !(log_ints_fits x y) by assumption.
  step_log.
  change GridImages.reference_points with Testing.reference_points.
  change GridImages.Z_HEIGHT with Testing.Z_HEIGHT.
  destruct (negb _).
  - step_log.
    reflexivity.
  - destruct (contains Testing.reference_points (x, y)).
    + destruct (getitem Testing.reference_points (x, y)) as [[xi yi]|]; reflexivity.
    + step_log.
      reflexivity.
Qed.

(** What a call leaves in a fresh log: the call, then the error or the
    computed triple; a reference cell logs the call only. *)
Lemma log_of_call :
  GridImages.entries (snd (GridImages.get_maze_coordinates 13 5 GridImages.new_log))
  = [GridImages.MsgCalled 13 5; GridImages.MsgInvalid 13 5]
  /\ GridImages.entries (snd (GridImages.get_maze_coordinates 6 6 GridImages.new_log))
     = [GridImages.MsgCalled 6 6]
  /\ GridImages.entries (snd (GridImages.get_maze_coordinates 10 6 GridImages.new_log))
     = [GridImages.MsgCalled 10 6;
        GridImages.MsgCalculated 10 6
          (PyFloat.lit 94702 3, PyFloat.lit 5350 2, PyFloat.lit 33577 3)].
Proof. vm_compute. repeat split. Qed.

Lemma resolve_testing (x y : Z) :
  GridImages.str_fits x = true -> GridImages.str_fits y = true ->
  resolve x y = Testing.get_maze_coordinates x y.
Proof. apply run_get_maze_coordinates. Qed.

Lemma resolve_testing_in_range (x y : Z) :
  0 <= x <= 12 -> 0 <= y <= 12 ->
  resolve x y = Testing.get_maze_coordinates x y.
Proof.
  intros Hx Hy. apply resolve_testing; now apply in_range_str_fits.
Qed.

Lemma resolve_over_limit (x y : Z) :
  10 ^ GridImages.int_max_str_digits <= Z.abs x
  \/ 10 ^ GridImages.int_max_str_digits <= Z.abs y ->
  resolve x y = Raise GridImages.int_str_error.
Proof.
  intros H. unfold resolve.
  now rewrite (run_over_limit x y _ (over_limit_not_fits x y H)).
Qed.

Lemma key_eqb_eq (a b : key) : key_eqb a b = true -> a = b.
Proof.
  unfold key_eqb. rewrite andb_true_iff, !Z.eqb_eq.
  destruct a, b; simpl. intros [-> ->]. reflexivity.
Qed.

Lemma in_getitem {V} (d : dict V) (k : key) (v : V) :
  NoDup (map fst d) -> In (k, v) d -> getitem d k = Some v.
Proof.
  induction d as [|[k' v'] d IH]; simpl; intros Hnd Hin.
  - contradiction.
  - inversion Hnd as [|? ? Hfresh Hnd']; subst.
    destruct Hin as [[= -> ->]|Hin].
    + now rewrite key_eqb_refl.
    + destruct (key_eqb k' k) eqn:E.
      * apply key_eqb_eq in E. subst k'.
        exfalso. apply Hfresh. now apply (in_map fst) in Hin.
      * now apply IH.
Qed.

(** ** How a call unfolds *)

(** A reference cell comes back from the table. *)
Lemma resolve_reference (x y : Z) (xi yi : PyFloat.float) :
  In ((x, y), (xi, yi)) reference_points ->
  resolve x y = Return (xi, yi, Z_HEIGHT).
Proof.
  intros Hin.
  pose proof (in_contains _ _ _ Hin) as Hc.
  destruct (reference_cell_in_range x y Hc) as [Hx Hy].
  pose proof (in_getitem _ _ _ reference_points_NoDup Hin) as Hg.
  rewrite (resolve_testing_in_range x y Hx Hy).
  unfold Testing.get_maze_coordinates.
  rewrite (guard_in_range x y Hx Hy).
  change Testing.reference_points with reference_points.
  rewrite Hc, Hg. reflexivity.
Qed.

(** Any other cell of the lattice goes through the two case analyses and
    the final [round]s. *)
Lemma resolve_computed (x y : Z) :
  0 <= x <= 12 -> 0 <= y <= 12 -> is_reference_cell x y = false ->
  resolve x y =
  Return
    (PyFloat.round
       (if x =? 1 then PyFloat.lit 8039 3
        else if x =? 11 then PyFloat.lit 102999 3
        else Formula.x_interp x) 3,
     PyFloat.round
       (if y =? 1 then PyFloat.lit 10098 2
        else if y =? 11 then PyFloat.lit 602 2
        else if y <=? 6 then Formula.y_interp_upper y
        else Formula.y_interp_lower y) 3,
     Z_HEIGHT).
Proof.
  intros Hx Hy Hc.
  rewrite (resolve_testing_in_range x y Hx Hy).
  unfold Testing.get_maze_coordinates.
  rewrite (guard_in_range x y Hx Hy).
  change (contains Testing.reference_points (x, y)) with (is_reference_cell x y).
  rewrite Hc. reflexivity.
Qed.

Lemma testing_out_of_range (x y : Z) :
  x < 0 \/ x > 12 \/ y < 0 \/ y > 12 ->
  Testing.get_maze_coordinates x y = Raise OutOfRange.
Proof.
  intros H. apply guard_out_of_range in H.
  unfold Testing.get_maze_coordinates. rewrite H. reflexivity.
Qed.

Lemma resolve_out_of_range (x y : Z) :
  Z.abs x < 10 ^ GridImages.int_max_str_digits ->
  Z.abs y < 10 ^ GridImages.int_max_str_digits ->
  x < 0 \/ x > 12 \/ y < 0 \/ y > 12 -> resolve x y = Raise OutOfRange.
Proof.
  intros Lx Ly H.
  rewrite resolve_testing by now apply str_fits_spec.
  now apply testing_out_of_range.
Qed.

(** On the lattice the resolver returns a triple whose third component is
    [Z_HEIGHT]. *)
Lemma resolve_in_range (x y : Z) :
  0 <= x <= 12 -> 0 <= y <= 12 ->
  exists xi yi, resolve x y = Return (xi, yi, Z_HEIGHT).
Proof.
  intros Hx Hy.
  destruct (is_reference_cell x y) eqn:Hc.
  - destruct (contains_getitem _ _ Hc) as [[xi yi] Hg].
    exists xi, yi. apply resolve_reference, getitem_in, Hg.
  - rewrite (resolve_computed x y Hx Hy Hc). eauto.
Qed.

(** ** The reference table *)

(** C1. A cell of the reference table resolves to exactly the tabulated
    pair with [Z_HEIGHT], the table has nine cells, and [resolve(6, 6)] is
    [(55.519, 53.50, 33.577)]. *)
Theorem reference_cells_exact :
  List.length reference_points = 9%nat
  /\ (forall x y xi yi,
         In ((x, y), (xi, yi)) reference_points ->
         resolve x y = Return (xi, yi, Z_HEIGHT))
  /\ resolve 6 6
     = Return (PyFloat.lit 55519 3, PyFloat.lit 5350 2, PyFloat.lit 33577 3).
Proof.
  split; [reflexivity|]. split.
  - exact resolve_reference.
  - apply resolve_reference.
    cbv [In reference_points GridImages.reference_points].
    do 3 right. left. reflexivity.
Qed.

Lemma reference_cells_exact_witness :
  resolve 2 10
  = Return (PyFloat.lit 16336 3, PyFloat.lit 21973 3, PyFloat.lit 33577 3).
Proof.
  apply (proj1 (proj2 reference_cells_exact) 2 10).
  cbv [In reference_points GridImages.reference_points].
  do 6 right. left. reflexivity.
Defined.

(** ** The domain *)

(** C2. The resolver raises the out-of-range error exactly for the cells
    off the lattice, and then returns nothing; [resolve(13, 5)] and
    [resolve(5, -1)] raise it.  For the copy in [testing.py] this holds
    for every pair of ints.  The copy in [grid_images.py] writes both
    ints into a log message before it checks them, so there it holds for
    the ints that can be turned into text (fewer than 4301 digits); for a
    longer int, which is off the lattice too, the conversion raises its
    own ValueError and nothing is returned either.  A triple is returned
    exactly on the lattice. *)
Theorem out_of_range_iff :
  (forall x y,
      Testing.get_maze_coordinates x y = Raise OutOfRange
      <-> x < 0 \/ x > 12 \/ y < 0 \/ y > 12)
  /\ (forall x y,
         (exists c, Testing.get_maze_coordinates x y = Return c)
         \/ Testing.get_maze_coordinates x y = Raise OutOfRange)
  /\ (forall x y,
         Z.abs x < 10 ^ GridImages.int_max_str_digits ->
         Z.abs y < 10 ^ GridImages.int_max_str_digits ->
         (resolve x y = Raise OutOfRange
          <-> x < 0 \/ x > 12 \/ y < 0 \/ y > 12)
         /\ ((exists c, resolve x y = Return c)
             \/ resolve x y = Raise OutOfRange))
  /\ (forall x y,
         resolve x y = Raise OutOfRange ->
         x < 0 \/ x > 12 \/ y < 0 \/ y > 12)
  /\ (forall x y,
         x < 0 \/ x > 12 \/ y < 0 \/ y > 12 ->
         resolve x y = Raise OutOfRange
         \/ (resolve x y = Raise GridImages.int_str_error
             /\ (10 ^ GridImages.int_max_str_digits <= Z.abs x
                 \/ 10 ^ GridImages.int_max_str_digits <= Z.abs y)))
  /\ (forall x y,
         (exists c, resolve x y = Return c)
         <-> 0 <= x <= 12 /\ 0 <= y <= 12)
  /\ (forall x y,
         resolve x y = Raise OutOfRange ->
         x_of (resolve x y) = None /\ y_of (resolve x y) = None
         /\ z_of (resolve x y) = None)
  /\ resolve 13 5 = Raise OutOfRange
  /\ resolve 5 (-1) = Raise OutOfRange.
Proof.
  assert (In_range : forall x y,
             0 <= x <= 12 -> 0 <= y <= 12 -> exists c, resolve x y = Return c).
  { intros x y Hx Hy.
    destruct (resolve_in_range x y Hx Hy) as (xi & yi & E). eauto. }
  assert (Off : forall x y,
             x < 0 \/ x > 12 \/ y < 0 \/ y > 12 ->
             resolve x y = Raise OutOfRange
             \/ (resolve x y = Raise GridImages.int_str_error
                 /\ (10 ^ GridImages.int_max_str_digits <= Z.abs x
                     \/ 10 ^ GridImages.int_max_str_digits <= Z.abs y))).
  { intros x y H.
    destruct (Z_lt_le_dec (Z.abs x) (10 ^ GridImages.int_max_str_digits))
      as [Lx|Lx];
      [|right; split; [apply resolve_over_limit|]; now left].
    destruct (Z_lt_le_dec (Z.abs y) (10 ^ GridImages.int_max_str_digits))
      as [Ly|Ly];
      [|right; split; [apply resolve_over_limit|]; now right].
    left. now apply resolve_out_of_range. }
  assert (On : forall x y,
             ~ (x < 0 \/ x > 12 \/ y < 0 \/ y > 12) ->
             0 <= x <= 12 /\ 0 <= y <= 12) by (intros; lia).
  assert (Dec : forall x y,
             (x < 0 \/ x > 12 \/ y < 0 \/ y > 12)
             \/ (0 <= x <= 12 /\ 0 <= y <= 12)) by (intros; lia).
  split; [|split; [|split; [|split; [|split; [|split; [|split; [|split]]]]]]].
  - intros x y. split; [|apply testing_out_of_range].
    intros H. destruct (Dec x y) as [D|[Hx Hy]]; [exact D|].
    rewrite <- (resolve_testing_in_range x y Hx Hy) in H.
    destruct (In_range x y Hx Hy) as [c E]. rewrite E in H. discriminate.
  - intros x y. destruct (Dec x y) as [D|[Hx Hy]].
    + right. now apply testing_out_of_range.
    + left. rewrite <- (resolve_testing_in_range x y Hx Hy).
      now apply In_range.
  - intros x y Lx Ly. split.
    + split; [|now apply resolve_out_of_range].
      intros H. destruct (Dec x y) as [D|[Hx Hy]]; [exact D|].
      destruct (In_range x y Hx Hy) as [c E]. rewrite E in H. discriminate.
    + destruct (Dec x y) as [D|[Hx Hy]].
      * right. now apply resolve_out_of_range.
      * left. now apply In_range.
  - intros x y H. destruct (Dec x y) as [D|[Hx Hy]]; [exact D|].
    destruct (In_range x y Hx Hy) as [c E]. rewrite E in H. discriminate.
  - exact Off.
  - intros x y. split.
    + intros [c E]. destruct (Dec x y) as [D|D]; [|exact D].
      destruct (Off x y D) as [R|[R _]]; rewrite R in E; discriminate.
    + intros [Hx Hy]. now apply In_range.
  - intros x y ->. repeat split.
  - apply resolve_out_of_range; try (apply within_limit; lia). lia.
  - apply resolve_out_of_range; try (apply within_limit; lia). lia.
Qed.

Lemma out_of_range_iff_witness :
  (resolve 13 5 = Raise OutOfRange
   <-> 13 < 0 \/ 13 > 12 \/ 5 < 0 \/ 5 > 12)
  /\ (x_of (resolve 5 (-1)) = None /\ y_of (resolve 5 (-1)) = None
      /\ z_of (resolve 5 (-1)) = None)
  /\ (resolve (10 ^ GridImages.int_max_str_digits) 5 = Raise OutOfRange
      \/ (resolve (10 ^ GridImages.int_max_str_digits) 5
          = Raise GridImages.int_str_error
          /\ (10 ^ GridImages.int_max_str_digits
              <= Z.abs (10 ^ GridImages.int_max_str_digits)
              \/ 10 ^ GridImages.int_max_str_digits <= Z.abs 5))).
Proof.
  destruct out_of_range_iff as (_ & _ & B & _ & O & _ & N & _ & E).
  split; [|split].
  - apply (B 13 5); apply within_limit; lia.
  - apply (N 5 (-1)), E.
  - apply (O (10 ^ GridImages.int_max_str_digits) 5).
    right. left. pose proof limit_above_100. lia.
Defined.

(** ** The height *)

(** C6. On the lattice the third component of the result is [Z_HEIGHT],
    the double written 33.577, for reference cells and for the others. *)
Theorem z_is_Z_HEIGHT (x y : Z) :
  0 <= x <= 12 -> 0 <= y <= 12 ->
  z_of (resolve x y) = Some Z_HEIGHT /\ Z_HEIGHT = PyFloat.lit 33577 3.
Proof.
  intros Hx Hy. split; [|reflexivity].
  destruct (resolve_in_range x y Hx Hy) as (xi & yi & ->). reflexivity.
Qed.

Lemma z_is_Z_HEIGHT_witness :
  z_of (resolve 6 6) = Some Z_HEIGHT /\ z_of (resolve 0 12) = Some Z_HEIGHT.
Proof.
  split.
  - apply (z_is_Z_HEIGHT 6 6); lia.
  - apply (z_is_Z_HEIGHT 0 12); lia.
Defined.

(** ** Facts established by evaluation on the thirteen values of an axis *)

(** [round] leaves the four boundary constants as they are. *)
Lemma round_fixes_landmarks :
  PyFloat.round (PyFloat.lit 8039 3) 3 = PyFloat.lit 8039 3
  /\ PyFloat.round (PyFloat.lit 102999 3) 3 = PyFloat.lit 102999 3
  /\ PyFloat.round (PyFloat.lit 10098 2) 3 = PyFloat.lit 10098 2
  /\ PyFloat.round (PyFloat.lit 602 2) 3 = PyFloat.lit 602 2.
Proof. vm_compute. repeat split. Qed.

(** The column step and the lower row step are the doubles written
    9.79575 and 7.88175; the upper row step is the next double after
    9.79575. *)
Lemma steps_as_decimals :
  Formula.x_step = PyFloat.lit 979575 5
  /\ Formula.y_step_lower = PyFloat.lit 788175 5
  /\ Formula.y_step <> PyFloat.lit 979575 5
  /\ Formula.y_step = S754_finite false 5514517006226818 (-49)
  /\ PyFloat.lit 979575 5 = S754_finite false 5514517006226817 (-49).
Proof. vm_compute. repeat split. discriminate. Qed.

(** Taking the product before the division changes no rounded result. *)
Lemma association_irrelevant (v : Z) :
  0 <= v <= 12 ->
  PyFloat.round (Formula.x_interp v) 3 = PyFloat.round (Formula.x_interp' v) 3
  /\ PyFloat.round (Formula.y_interp_upper v) 3
     = PyFloat.round (Formula.y_interp_upper' v) 3
  /\ PyFloat.round (Formula.y_interp_lower v) 3
     = PyFloat.round (Formula.y_interp_lower' v) 3.
Proof.
  intros Hv.
  assert (H : forallb (fun v =>
            PyFloat.same (PyFloat.round (Formula.x_interp v) 3)
                         (PyFloat.round (Formula.x_interp' v) 3)
            && PyFloat.same (PyFloat.round (Formula.y_interp_upper v) 3)
                            (PyFloat.round (Formula.y_interp_upper' v) 3)
            && PyFloat.same (PyFloat.round (Formula.y_interp_lower v) 3)
                            (PyFloat.round (Formula.y_interp_lower' v) 3))
            grid_range = true) by (vm_compute; reflexivity).
  apply (grid_forall _ H) in Hv.
  apply andb_true_iff in Hv as [Hv H3]. apply andb_true_iff in Hv as [H1 H2].
  repeat split; now apply same_eq.
Qed.

(** Each rounded line value is the exact line value rounded to three
    decimals. *)
Lemma lines_rounded_3dp (v : Z) :
  0 <= v <= 12 ->
  Exact.rounded_3dp (Exact.x_line v) (PyFloat.round (Formula.x_interp v) 3)
  /\ Exact.rounded_3dp (Exact.y_upper v)
       (PyFloat.round (Formula.y_interp_upper v) 3)
  /\ Exact.rounded_3dp (Exact.y_lower v)
       (PyFloat.round (Formula.y_interp_lower v) 3).
Proof.
  intros Hv.
  assert (H : forallb (fun v =>
            Exact.rounded_3dp_b (Exact.x_line v)
              (PyFloat.round (Formula.x_interp v) 3)
            && Exact.rounded_3dp_b (Exact.y_upper v)
                 (PyFloat.round (Formula.y_interp_upper v) 3)
            && Exact.rounded_3dp_b (Exact.y_lower v)
                 (PyFloat.round (Formula.y_interp_lower v) 3))
            grid_range = true) by (vm_compute; reflexivity).
  apply (grid_forall _ H) in Hv.
  apply andb_true_iff in Hv as [Hv H3]. apply andb_true_iff in Hv as [H1 H2].
  repeat split; now apply rounded_3dp_b_sound.
Qed.

(** The thirteen rounded values of each line, in thousandths. *)
Lemma line_values :
  map (fun v => Exact.milli (PyFloat.round (Formula.x_interp v) 3)) grid_range
  = [-3256; 6540; 16336; 26132; 35927; 45723; 55519; 65315; 75111; 84906;
     94702; 104498; 114293]
  /\ map (fun v => Exact.milli (PyFloat.round (Formula.y_interp_upper v) 3))
       grid_range
     = [112275; 102479; 92683; 82887; 73091; 63296; 53500; 43704; 33908;
        24113; 14317; 4521; -5275]
  /\ map (fun v => Exact.milli (PyFloat.round (Formula.y_interp_lower v) 3))
       grid_range
     = [100791; 92909; 85027; 77145; 69263; 61382; 53500; 45618; 37736;
        29855; 21973; 14091; 6209].
Proof. vm_compute. repeat split. Qed.

(** What [round] hands back is a double nearest to the decimal it stands
    for. *)
Lemma rounded_values_nearest :
  forallb (fun v =>
    let near f := PyFloat.nearest_to (Exact.milli f # 1000) f in
    near (PyFloat.round (Formula.x_interp v) 3)
    && near (PyFloat.round (Formula.y_interp_upper v) 3)
    && near (PyFloat.round (Formula.y_interp_lower v) 3)) grid_range = true.
Proof. vm_compute. reflexivity. Qed.

(** ** The interpolated columns *)

(** C3. Off the reference table and off columns 1 and 11, the x-coordinate
    is the column line through 16.336 at column 2 and 94.702 at column 10,
    rounded to three decimals: as the float expression (whichever way the
    product and the division associate), and as the exact value of the
    line rounded to thousandths.  It does not depend on [y]. *)
Theorem x_interpolated (x y : Z) :
  0 <= x <= 12 -> 0 <= y <= 12 -> is_reference_cell x y = false ->
  x <> 1 -> x <> 11 ->
  x_of (resolve x y) = Some (PyFloat.round (Formula.x_interp x) 3)
  /\ x_of (resolve x y) = Some (PyFloat.round (Formula.x_interp' x) 3)
  /\ Exact.rounded_3dp (Exact.x_line x) (PyFloat.round (Formula.x_interp x) 3).
Proof.
  intros Hx Hy Hc H1 H11.
  assert (E : x_of (resolve x y) = Some (PyFloat.round (Formula.x_interp x) 3)).
  { rewrite (resolve_computed x y Hx Hy Hc).
    apply Z.eqb_neq in H1, H11. rewrite H1, H11. reflexivity. }
  split; [exact E|]. split.
  - rewrite E. f_equal. apply (association_irrelevant x Hx).
  - apply (lines_rounded_3dp x Hx).
Qed.

Lemma x_interpolated_witness :
  x_of (resolve 4 7) = Some (PyFloat.round (Formula.x_interp 4) 3)
  /\ x_of (resolve 4 7) = Some (PyFloat.round (Formula.x_interp' 4) 3)
  /\ Exact.rounded_3dp (Exact.x_line 4) (PyFloat.round (Formula.x_interp 4) 3).
Proof.
  apply (x_interpolated 4 7); try lia. reflexivity.
Defined.

(** ** The interpolated rows *)

(** C4. Off the reference table and off rows 1 and 11, the y-coordinate
    follows two lines that meet at row 6: from 92.683 at row 2 down to
    53.50 at row 6 for rows 2 to 6, and from 53.50 at row 6 down to 21.973
    at row 10 for rows 7 to 10, each rounded to three decimals. *)
Theorem y_interpolated (x y : Z) :
  0 <= x <= 12 -> 0 <= y <= 12 -> is_reference_cell x y = false ->
  y <> 1 -> y <> 11 ->
  (2 <= y <= 6 ->
     y_of (resolve x y) = Some (PyFloat.round (Formula.y_interp_upper y) 3)
     /\ y_of (resolve x y) = Some (PyFloat.round (Formula.y_interp_upper' y) 3)
     /\ Exact.rounded_3dp (Exact.y_upper y)
          (PyFloat.round (Formula.y_interp_upper y) 3))
  /\ (6 < y <= 10 ->
     y_of (resolve x y) = Some (PyFloat.round (Formula.y_interp_lower y) 3)
     /\ y_of (resolve x y) = Some (PyFloat.round (Formula.y_interp_lower' y) 3)
     /\ Exact.rounded_3dp (Exact.y_lower y)
          (PyFloat.round (Formula.y_interp_lower y) 3)).
Proof.
  intros Hx Hy Hc H1 H11.
  pose proof (resolve_computed x y Hx Hy Hc) as E.
  apply Z.eqb_neq in H1, H11. rewrite H1, H11 in E.
  split; intros Hr.
  - assert (L : (y <=? 6) = true) by (apply Z.leb_le; lia).
    rewrite L in E.
    assert (E' : y_of (resolve x y)
                 = Some (PyFloat.round (Formula.y_interp_upper y) 3))
      by (rewrite E; reflexivity).
    split; [exact E'|]. split.
    + rewrite E'. f_equal. apply (association_irrelevant y Hy).
    + apply (lines_rounded_3dp y Hy).
  - assert (L : (y <=? 6) = false) by (apply Z.leb_gt; lia).
    rewrite L in E.
    assert (E' : y_of (resolve x y)
                 = Some (PyFloat.round (Formula.y_interp_lower y) 3))
      by (rewrite E; reflexivity).
    split; [exact E'|]. split.
    + rewrite E'. f_equal. apply (association_irrelevant y Hy).
    + apply (lines_rounded_3dp y Hy).
Qed.

Lemma y_interpolated_witness :
  y_of (resolve 3 4) = Some (PyFloat.round (Formula.y_interp_upper 4) 3)
  /\ y_of (resolve 3 8) = Some (PyFloat.round (Formula.y_interp_lower 8) 3).
Proof.
  split.
  - apply (y_interpolated 3 4); try lia. reflexivity.
  - apply (y_interpolated 3 8); try lia. reflexivity.
Defined.

(** ** The boundary landmarks *)

Lemma entry_inj {A B} (a a' b b' : A) (c c' d d' : B) :
  ((a, b), (c, d)) = ((a', b'), (c', d')) ->
  a = a' /\ b = b' /\ c = c' /\ d = d'.
Proof. intros H. inversion H. auto. Qed.

(** The table agrees with the boundary constants on columns and rows 1
    and 11. *)
Lemma reference_landmarks (x y : Z) (xi yi : PyFloat.float) :
  In ((x, y), (xi, yi)) reference_points ->
  (x = 1 -> xi = PyFloat.lit 8039 3)
  /\ (x = 11 -> xi = PyFloat.lit 102999 3)
  /\ (y = 1 -> yi = PyFloat.lit 10098 2)
  /\ (y = 11 -> yi = PyFloat.lit 602 2).
Proof.
  intros H. cbv [In reference_points GridImages.reference_points] in H.
  repeat (destruct H as [H|H];
          [apply entry_inj in H as (<- & <- & <- & <-);
           (split; [|split; [|split]]); intros E;
           (discriminate E || reflexivity)|]).
  contradiction.
Qed.

Lemma reference_lookup (x y : Z) :
  is_reference_cell x y = true ->
  exists xi yi, In ((x, y), (xi, yi)) reference_points.
Proof.
  intros Hc. destruct (contains_getitem _ _ Hc) as [[xi yi] Hg].
  exists xi, yi. apply getitem_in, Hg.
Qed.

(** C5. Column 1 resolves to x = 8.039 and column 11 to x = 102.999
    whatever the row; row 1 resolves to y = 100.98 and row 11 to y = 6.02
    whatever the column. *)
Theorem boundary_landmarks_fixed :
  (forall y, 0 <= y <= 12 -> x_of (resolve 1 y) = Some (PyFloat.lit 8039 3))
  /\ (forall y, 0 <= y <= 12 ->
        x_of (resolve 11 y) = Some (PyFloat.lit 102999 3))
  /\ (forall x, 0 <= x <= 12 ->
        y_of (resolve x 1) = Some (PyFloat.lit 10098 2))
  /\ (forall x, 0 <= x <= 12 ->
        y_of (resolve x 11) = Some (PyFloat.lit 602 2)).
Proof.
  destruct round_fixes_landmarks as (R1 & R2 & R3 & R4).
  repeat split; intros v Hv.
  - destruct (is_reference_cell 1 v) eqn:Hc.
    + destruct (reference_lookup _ _ Hc) as (xi & yi & Hin).
      rewrite (resolve_reference _ _ _ _ Hin).
      apply reference_landmarks in Hin as (L & _). now rewrite L.
    + rewrite (resolve_computed 1 v ltac:(lia) Hv Hc).
      change (1 =? 1) with true. cbv iota. rewrite R1. reflexivity.
  - destruct (is_reference_cell 11 v) eqn:Hc.
    + destruct (reference_lookup _ _ Hc) as (xi & yi & Hin).
      rewrite (resolve_reference _ _ _ _ Hin).
      apply reference_landmarks in Hin as (_ & L & _). now rewrite L.
    + rewrite (resolve_computed 11 v ltac:(lia) Hv Hc).
      change (11 =? 1) with false. change (11 =? 11) with true.
      cbv iota. rewrite R2. reflexivity.
  - destruct (is_reference_cell v 1) eqn:Hc.
    + destruct (reference_lookup _ _ Hc) as (xi & yi & Hin).
      rewrite (resolve_reference _ _ _ _ Hin).
      apply reference_landmarks in Hin as (_ & _ & L & _). now rewrite L.
    + rewrite (resolve_computed v 1 Hv ltac:(lia) Hc).
      change (1 =? 1) with true. cbv iota. rewrite R3. reflexivity.
  - destruct (is_reference_cell v 11) eqn:Hc.
    + destruct (reference_lookup _ _ Hc) as (xi & yi & Hin).
      rewrite (resolve_reference _ _ _ _ Hin).
      apply reference_landmarks in Hin as (_ & _ & _ & L). now rewrite L.
    + rewrite (resolve_computed v 11 Hv ltac:(lia) Hc).
      change (11 =? 1) with false. change (11 =? 11) with true.
      cbv iota. rewrite R4. reflexivity.
Qed.

Lemma boundary_landmarks_fixed_witness :
  x_of (resolve 1 5) = Some (PyFloat.lit 8039 3)
  /\ x_of (resolve 11 11) = Some (PyFloat.lit 102999 3)
  /\ y_of (resolve 0 1) = Some (PyFloat.lit 10098 2)
  /\ y_of (resolve 12 11) = Some (PyFloat.lit 602 2).
Proof.
  destruct boundary_landmarks_fixed as (A & B & C & D).
  split; [|split; [|split]]; [apply A | apply B | apply C | apply D]; lia.
Defined.

(** ** Monotonicity along a row *)

(** C7. Along each row from 2 to 10, the x-coordinate does not decrease as
    the column goes from 2 to 10, reference cells included: both cells
    resolve, and the x of the left one is at most the x of the right one,
    as floats and as exact values. *)
Theorem x_monotone (y x1 x2 : Z) :
  2 <= y <= 10 -> 2 <= x1 -> x1 <= x2 -> x2 <= 10 ->
  exists a b,
    x_of (resolve x1 y) = Some a /\ x_of (resolve x2 y) = Some b
    /\ PyFloat.leb a b = true
    /\ (PyFloat.to_Q a <= PyFloat.to_Q b)%Q.
Proof.
  intros Hy H1 H12 H2.
  assert (H : forallb (fun x1 => forallb (fun x2 => forallb (fun y =>
            if (2 <=? y) && (y <=? 10) && (2 <=? x1) && (x1 <=? x2)
               && (x2 <=? 10)
            then
              match x_of (resolve x1 y), x_of (resolve x2 y) with
              | Some a, Some b =>
                  PyFloat.leb a b
                  && Qle_bool (PyFloat.to_Q a) (PyFloat.to_Q b)
              | _, _ => false
              end
            else true) grid_range) grid_range) grid_range = true)
    by (vm_compute; reflexivity).
  pose proof (grid_forall2 _ H x1 x2 ltac:(lia) ltac:(lia)) as Hrow.
  pose proof (grid_forall _ Hrow y ltac:(lia)) as Hcell.
  cbv beta in Hcell.
  replace ((2 <=? y) && (y <=? 10) && (2 <=? x1) && (x1 <=? x2) && (x2 <=? 10))
    with true in Hcell
    by (symmetry; rewrite !andb_true_iff, !Z.leb_le; lia).
  destruct (x_of (resolve x1 y)) as [a|]; [|discriminate].
  destruct (x_of (resolve x2 y)) as [b|]; [|discriminate].
  apply andb_true_iff in Hcell as [Hle HQ].
  exists a, b. repeat split; trivial. now apply Qle_bool_iff.
Qed.

Lemma x_monotone_witness :
  exists a b,
    x_of (resolve 5 2) = Some a /\ x_of (resolve 6 2) = Some b
    /\ PyFloat.leb a b = true
    /\ (PyFloat.to_Q a <= PyFloat.to_Q b)%Q.
Proof.
  apply (x_monotone 2 5 6); lia.
Defined.

(** ** The cell (10, 6) *)

(** C8. [(10, 6)] is not a reference cell and resolves to
    [(94.702, 53.50, Z_HEIGHT)]: the column step is the double 9.79575,
    [16.336 + 8 * 9.79575] is the double 94.702, and the upper row line at
    row 6 is the double 53.50, all before any rounding. *)
Theorem resolve_10_6 :
  is_reference_cell 10 6 = false
  /\ resolve 10 6
     = Return (PyFloat.lit 94702 3, PyFloat.lit 5350 2, Z_HEIGHT)
  /\ Formula.x_step = PyFloat.lit 979575 5
  /\ Formula.x_interp 10 = PyFloat.lit 94702 3
  /\ PyFloat.add (PyFloat.lit 16336 3)
       (PyFloat.mul (PyFloat.of_int 8) (PyFloat.lit 979575 5))
     = PyFloat.lit 94702 3
  /\ Formula.y_interp_upper 6 = PyFloat.lit 5350 2.
Proof. vm_compute. repeat split. Qed.

(** ** Rounding *)

(** C9. Off the reference table, a coordinate that is computed comes back
    rounded to three decimals, and a coordinate that is one of the four
    boundary constants comes back as that constant: the [round] the code
    applies to it changes nothing.  [resolve(1, 5)] is
    [(8.039, 63.296, Z_HEIGHT)]. *)
Theorem rounding_discipline (x y : Z) :
  0 <= x <= 12 -> 0 <= y <= 12 -> is_reference_cell x y = false ->
  x_of (resolve x y)
  = Some (if x =? 1 then PyFloat.lit 8039 3
          else if x =? 11 then PyFloat.lit 102999 3
          else PyFloat.round (Formula.x_interp x) 3)
  /\ y_of (resolve x y)
     = Some (if y =? 1 then PyFloat.lit 10098 2
             else if y =? 11 then PyFloat.lit 602 2
             else PyFloat.round
                    (if y <=? 6 then Formula.y_interp_upper y
                     else Formula.y_interp_lower y) 3)
  /\ is_reference_cell 1 5 = false
  /\ resolve 1 5 = Return (PyFloat.lit 8039 3, PyFloat.lit 63296 3, Z_HEIGHT).
Proof.
  intros Hx Hy Hc.
  destruct round_fixes_landmarks as (R1 & R2 & R3 & R4).
  rewrite (resolve_computed x y Hx Hy Hc).
  split; [|split; [|split]].
  - destruct (x =? 1); [now rewrite R1|].
    destruct (x =? 11); [now rewrite R2|]. reflexivity.
  - destruct (y =? 1); [now rewrite R3|].
    destruct (y =? 11); [now rewrite R4|]. reflexivity.
  - reflexivity.
  - vm_compute. reflexivity.
Qed.

Lemma rounding_discipline_witness :
  x_of (resolve 11 4) = Some (PyFloat.lit 102999 3)
  /\ y_of (resolve 11 4) = Some (PyFloat.round (Formula.y_interp_upper 4) 3).
Proof.
  destruct (rounding_discipline 11 4) as (X & Y & _); try lia.
  - reflexivity.
  - split; [exact X | exact Y].
Defined.

(** ** The outer rows and columns *)

Lemma reference_cell_key (x y : Z) :
  is_reference_cell x y = true -> In (x, y) (map fst reference_points).
Proof.
  intros Hc. destruct (reference_lookup x y Hc) as (xi & yi & Hin).
  exact (in_map fst _ _ Hin).
Qed.

(** No reference cell lies on row or column 0 or 12. *)
Lemma edge_not_reference (x y : Z) :
  x = 0 \/ x = 12 \/ y = 0 \/ y = 12 -> is_reference_cell x y = false.
Proof.
  intros He. destruct (is_reference_cell x y) eqn:Hc; [exfalso|reflexivity].
  apply reference_cell_key in Hc. rewrite reference_points_keys in Hc.
  cbv [In] in Hc.
  repeat (destruct Hc as [Hc|Hc]; [injection Hc as <- <-; lia|]).
  contradiction.
Qed.

(** With the steps written as decimals, the column line and the lower row
    line are the same float expressions; the upper row line differs in its
    step, not in its rounded value at row 0. *)
Lemma extrapolation_lines (v : Z) :
  Formula.x_interp v = Formula.x_extrap v
  /\ Formula.y_interp_lower v = Formula.y_extrap_lower v
  /\ PyFloat.round (Formula.y_interp_upper 0) 3
     = PyFloat.round (Formula.y_extrap_upper 0) 3.
Proof.
  destruct steps_as_decimals as (Sx & Sl & _).
  split; [|split].
  - unfold Formula.x_interp, Formula.x_extrap. now rewrite Sx.
  - unfold Formula.y_interp_lower, Formula.y_extrap_lower. now rewrite Sl.
  - vm_compute. reflexivity.
Qed.

(** Where the decimal step 9.79575 would change a result: row 4 resolves
    to y = 73.091, and the upper line with the decimal step gives 73.092. *)
Lemma upper_step_matters :
  PyFloat.round (Formula.y_interp_upper 4) 3 = PyFloat.lit 73091 3
  /\ PyFloat.round (Formula.y_extrap_upper 4) 3 = PyFloat.lit 73092 3
  /\ y_of (resolve 3 4) = Some (PyFloat.lit 73091 3).
Proof. vm_compute. repeat split. Qed.

(** C10. Every cell of the lattice resolves.  On columns 0 and 12 the
    x-coordinate is the column line [16.336 + (x - 2) * 9.79575] continued
    past its end points, on row 0 the y-coordinate is the upper row line
    [92.683 - (y - 2) * 9.79575] and on row 12 the lower row line
    [53.50 - (y - 6) * 7.88175], each rounded to three decimals; none of
    these cells is a reference cell. *)
Theorem edge_cells_extrapolated (x y : Z) :
  0 <= x <= 12 -> 0 <= y <= 12 ->
  exists xi yi,
    resolve x y = Return (xi, yi, Z_HEIGHT)
    /\ (x = 0 \/ x = 12 ->
        is_reference_cell x y = false
        /\ xi = PyFloat.round (Formula.x_extrap x) 3)
    /\ (y = 0 ->
        is_reference_cell x y = false
        /\ yi = PyFloat.round (Formula.y_extrap_upper y) 3)
    /\ (y = 12 ->
        is_reference_cell x y = false
        /\ yi = PyFloat.round (Formula.y_extrap_lower y) 3).
Proof.
  intros Hx Hy.
  destruct (is_reference_cell x y) eqn:Hc.
  - destruct (reference_lookup x y Hc) as (xi & yi & Hin).
    exists xi, yi. split; [exact (resolve_reference _ _ _ _ Hin)|].
    split; [|split]; intros He;
      rewrite (edge_not_reference x y) in Hc by tauto; discriminate Hc.
  - eexists; eexists. split; [exact (resolve_computed x y Hx Hy Hc)|].
    split; [|split]; intros He; (split; [reflexivity|]).
    + destruct (extrapolation_lines x) as (E & _). rewrite <- E.
      destruct He as [-> | ->]; reflexivity.
    + subst y. destruct (extrapolation_lines 0) as (_ & _ & E).
      rewrite <- E. reflexivity.
    + subst y. destruct (extrapolation_lines 12) as (_ & E & _).
      rewrite <- E. reflexivity.
Qed.

Lemma edge_cells_extrapolated_witness :
  exists xi yi,
    resolve 12 0 = Return (xi, yi, Z_HEIGHT)
    /\ xi = PyFloat.lit 114293 3 /\ yi = PyFloat.lit 112275 3.
Proof.
  destruct (edge_cells_extrapolated 12 0) as (xi & yi & E & X & Y & _);
    try lia.
  exists xi, yi. split; [exact E|].
  destruct (X ltac:(lia)) as (_ & ->). destruct (Y eq_refl) as (_ & ->).
  vm_compute. split; reflexivity.
Defined.


(* ================================================================== *)
(** * Further properties of the resolver                               *)
(* ================================================================== *)

Lemma same_refl (a : PyFloat.float) : PyFloat.same a a = true.
Proof.
  destruct a as [s| s| |s m e]; simpl; trivial; try apply eqb_reflx.
  now rewrite eqb_reflx, Pos.eqb_refl, Z.eqb_refl.
Qed.

(** Every table entry holds what the two case analyses compute for its
    column and its row. *)
Lemma table_entry_axes (x y : Z) (xi yi : PyFloat.float) :
  In ((x, y), (xi, yi)) reference_points ->
  xi = column_x x /\ yi = row_y y.
Proof.
  intros H. cbv [In reference_points GridImages.reference_points] in H.
  repeat (destruct H as [H|H];
          [apply entry_inj in H as (<- & <- & <- & <-);
           vm_compute; split; reflexivity|]).
  contradiction.
Qed.

(** On the lattice the result is made of the column's x and the row's y,
    for reference cells too. *)
Lemma resolve_axes (x y : Z) :
  0 <= x <= 12 -> 0 <= y <= 12 ->
  resolve x y = Return (column_x x, row_y y, Z_HEIGHT).
Proof.
  intros Hx Hy. destruct (is_reference_cell x y) eqn:Hc.
  - destruct (reference_lookup x y Hc) as (xi & yi & Hin).
    rewrite (resolve_reference _ _ _ _ Hin).
    destruct (table_entry_axes _ _ _ _ Hin) as [-> ->]. reflexivity.
  - exact (resolve_computed x y Hx Hy Hc).
Qed.

(** Checks on one axis, by evaluation. *)
Lemma axis_order :
  forallb (fun a => forallb (fun b =>
    if a <? b
    then PyFloat.ltb (column_x a) (column_x b)
         && (if b <=? 11 then PyFloat.ltb (row_y b) (row_y a)
             else if a =? 11 then PyFloat.ltb (row_y a) (row_y b)
             else PyFloat.ltb (row_y b) (row_y a))
    else true) grid_range) grid_range = true.
Proof. vm_compute. reflexivity. Qed.

Lemma axis_distinct :
  forallb (fun a => forallb (fun b =>
    (if PyFloat.same (column_x a) (column_x b) then a =? b else true)
    && (if PyFloat.same (row_y a) (row_y b) then a =? b else true))
    grid_range) grid_range = true.
Proof. vm_compute. reflexivity. Qed.

Lemma column_x_injective (a b : Z) :
  0 <= a <= 12 -> 0 <= b <= 12 -> column_x a = column_x b -> a = b.
Proof.
  intros Ha Hb E.
  pose proof (grid_forall2 _ axis_distinct a b Ha Hb) as H. cbv beta in H.
  apply andb_true_iff in H as [H _].
  rewrite E, same_refl in H. now apply Z.eqb_eq.
Qed.

Lemma row_y_injective (a b : Z) :
  0 <= a <= 12 -> 0 <= b <= 12 -> row_y a = row_y b -> a = b.
Proof.
  intros Ha Hb E.
  pose proof (grid_forall2 _ axis_distinct a b Ha Hb) as H. cbv beta in H.
  apply andb_true_iff in H as [_ H].
  rewrite E, same_refl in H. now apply Z.eqb_eq.
Qed.

(** ** The table against the formulas *)

(** X1. The reference table never changes a result: each of its entries
    holds exactly the x that the column rule and the y that the row rule
    compute and round for that cell, so the cell resolves to the same
    triple with or without the lookup. *)
Theorem table_agrees_with_formulas (x y : Z) (xi yi : PyFloat.float) :
  In ((x, y), (xi, yi)) reference_points ->
  xi = column_x x /\ yi = row_y y
  /\ resolve x y = Return (column_x x, row_y y, Z_HEIGHT).
Proof.
  intros Hin. destruct (table_entry_axes _ _ _ _ Hin) as [Ex Ey].
  split; [exact Ex|]. split; [exact Ey|].
  rewrite (resolve_reference _ _ _ _ Hin), Ex, Ey. reflexivity.
Qed.

Lemma table_agrees_with_formulas_witness :
  PyFloat.lit 55519 3 = column_x 6 /\ PyFloat.lit 5350 2 = row_y 6
  /\ resolve 6 6 = Return (column_x 6, row_y 6, Z_HEIGHT).
Proof.
  apply (table_agrees_with_formulas 6 6).
  cbv [In reference_points GridImages.reference_points].
  do 3 right. left. reflexivity.
Defined.

(** X2. On the lattice the x-coordinate depends on the column only and
    the y-coordinate on the row only, reference cells included. *)
Theorem coordinates_separable (x x' y y' : Z) :
  0 <= x <= 12 -> 0 <= x' <= 12 -> 0 <= y <= 12 -> 0 <= y' <= 12 ->
  x_of (resolve x y) = x_of (resolve x y')
  /\ y_of (resolve x y) = y_of (resolve x' y)
  /\ x_of (resolve x y) = Some (column_x x)
  /\ y_of (resolve x y) = Some (row_y y).
Proof.
  intros Hx Hx' Hy Hy'.
  rewrite (resolve_axes x y Hx Hy), (resolve_axes x y' Hx Hy'),
    (resolve_axes x' y Hx' Hy).
  split; [|split; [|split]]; reflexivity.
Qed.

Lemma coordinates_separable_witness :
  x_of (resolve 6 2) = x_of (resolve 6 9)
  /\ y_of (resolve 6 2) = y_of (resolve 3 2)
  /\ x_of (resolve 6 2) = Some (column_x 6)
  /\ y_of (resolve 6 2) = Some (row_y 2).
Proof.
  apply (coordinates_separable 6 3 2 9); lia.
Defined.

(** ** Order and injectivity *)

(** X3. Along every row, the x-coordinate strictly increases with the
    column over the whole lattice, 0 to 12. *)
Theorem x_strictly_increasing (y x1 x2 : Z) :
  0 <= y <= 12 -> 0 <= x1 -> x1 < x2 -> x2 <= 12 ->
  exists a b,
    x_of (resolve x1 y) = Some a /\ x_of (resolve x2 y) = Some b
    /\ PyFloat.ltb a b = true.
Proof.
  intros Hy H1 H12 H2.
  rewrite (resolve_axes x1 y ltac:(lia) Hy), (resolve_axes x2 y ltac:(lia) Hy).
  exists (column_x x1), (column_x x2). split; [reflexivity|].
  split; [reflexivity|].
  pose proof (grid_forall2 _ axis_order x1 x2 ltac:(lia) ltac:(lia)) as H.
  cbv beta in H.
  replace (x1 <? x2) with true in H by (symmetry; apply Z.ltb_lt; lia).
  now apply andb_true_iff in H as [H _].
Qed.

Lemma x_strictly_increasing_witness :
  exists a b,
    x_of (resolve 0 1) = Some a /\ x_of (resolve 1 1) = Some b
    /\ PyFloat.ltb a b = true.
Proof.
  apply (x_strictly_increasing 1 0 1); lia.
Defined.

(** X4. Along every column, the y-coordinate strictly decreases as the
    row goes from 0 to 11; row 12 breaks the order: its y (6.209) is above
    the y of row 11 (6.02), and below the y of every other row. *)
Theorem y_order_of_rows (x y1 y2 : Z) :
  0 <= x <= 12 -> 0 <= y1 -> y1 < y2 -> y2 <= 12 ->
  exists a b,
    y_of (resolve x y1) = Some a /\ y_of (resolve x y2) = Some b
    /\ (y2 <= 11 -> PyFloat.ltb b a = true)
    /\ (y2 = 12 -> y1 <> 11 -> PyFloat.ltb b a = true)
    /\ (y2 = 12 -> y1 = 11 ->
        PyFloat.ltb a b = true
        /\ a = PyFloat.lit 602 2 /\ b = PyFloat.lit 6209 3).
Proof.
  intros Hx H1 H12 H2.
  rewrite (resolve_axes x y1 Hx ltac:(lia)), (resolve_axes x y2 Hx ltac:(lia)).
  exists (row_y y1), (row_y y2). split; [reflexivity|].
  split; [reflexivity|].
  pose proof (grid_forall2 _ axis_order y1 y2 ltac:(lia) ltac:(lia)) as H.
  cbv beta in H.
  replace (y1 <? y2) with true in H by (symmetry; apply Z.ltb_lt; lia).
  apply andb_true_iff in H as [_ H].
  split; [|split].
  - intros L. apply Z.leb_le in L. now rewrite L in H.
  - intros -> N. change (12 <=? 11) with false in H. cbv iota in H.
    apply Z.eqb_neq in N. now rewrite N in H.
  - intros -> ->. split; [exact H|]. vm_compute. split; reflexivity.
Qed.

Lemma y_order_of_rows_witness :
  exists a b,
    y_of (resolve 4 11) = Some a /\ y_of (resolve 4 12) = Some b
    /\ PyFloat.ltb a b = true.
Proof.
  destruct (y_order_of_rows 4 11 12) as (a & b & Ea & Eb & _ & _ & H);
    try lia.
  exists a, b. split; [exact Ea|]. split; [exact Eb|].
  now destruct (H eq_refl eq_refl).
Defined.

(** X5. Two cells of the lattice that resolve to the same triple are the
    same cell. *)
Theorem resolve_injective (x y x' y' : Z) :
  0 <= x <= 12 -> 0 <= y <= 12 -> 0 <= x' <= 12 -> 0 <= y' <= 12 ->
  resolve x y = resolve x' y' -> x = x' /\ y = y'.
Proof.
  intros Hx Hy Hx' Hy'.
  rewrite (resolve_axes x y Hx Hy), (resolve_axes x' y' Hx' Hy').
  intros E.
  assert (Ex : column_x x = column_x x') by congruence.
  assert (Ey : row_y y = row_y y') by congruence.
  split; [now apply column_x_injective | now apply row_y_injective].
Qed.

Lemma resolve_injective_witness : 3 = 3 /\ 4 = 4.
Proof.
  apply (resolve_injective 3 4 3 4); try lia. reflexivity.
Defined.

(** ** What the results look like *)

Lemma axis_values_rounded :
  forallb (fun v =>
    PyFloat.same (PyFloat.round (column_x v) 3) (column_x v)
    && PyFloat.same (PyFloat.round (row_y v) 3) (row_y v)
    && PyFloat.leb (PyFloat.lit (-3256) 3) (column_x v)
    && PyFloat.leb (column_x v) (PyFloat.lit 114293 3)
    && PyFloat.leb (PyFloat.lit 602 2) (row_y v)
    && PyFloat.leb (row_y v) (PyFloat.lit 112275 3)
    && Bool.eqb (PyFloat.ltb (column_x v) (PyFloat.of_int 0)) (v =? 0))
    grid_range = true.
Proof. vm_compute. reflexivity. Qed.

(** X6. Every coordinate returned for a cell of the lattice already has
    at most three decimals: rounding it again to three decimals gives it
    back, for table values as for computed ones. *)
Theorem outputs_three_decimals (x y : Z) :
  0 <= x <= 12 -> 0 <= y <= 12 ->
  exists xi yi zi,
    resolve x y = Return (xi, yi, zi)
    /\ PyFloat.round xi 3 = xi /\ PyFloat.round yi 3 = yi
    /\ PyFloat.round zi 3 = zi.
Proof.
  intros Hx Hy. rewrite (resolve_axes x y Hx Hy).
  exists (column_x x), (row_y y), Z_HEIGHT. split; [reflexivity|].
  pose proof (grid_forall _ axis_values_rounded x Hx) as Cx.
  pose proof (grid_forall _ axis_values_rounded y Hy) as Cy.
  cbv beta in Cx, Cy. rewrite !andb_true_iff in Cx, Cy.
  split; [|split].
  - apply same_eq. tauto.
  - apply same_eq. tauto.
  - vm_compute. reflexivity.
Qed.

Lemma outputs_three_decimals_witness :
  exists xi yi zi,
    resolve 4 4 = Return (xi, yi, zi)
    /\ PyFloat.round xi 3 = xi /\ PyFloat.round yi 3 = yi
    /\ PyFloat.round zi 3 = zi.
Proof.
  apply (outputs_three_decimals 4 4); lia.
Defined.

(** X7. The results lie in the box -3.256 <= x <= 114.293,
    6.02 <= y <= 112.275, and x is negative exactly on column 0. *)
Theorem outputs_bounding_box (x y : Z) :
  0 <= x <= 12 -> 0 <= y <= 12 ->
  exists xi yi,
    resolve x y = Return (xi, yi, Z_HEIGHT)
    /\ PyFloat.leb (PyFloat.lit (-3256) 3) xi = true
    /\ PyFloat.leb xi (PyFloat.lit 114293 3) = true
    /\ PyFloat.leb (PyFloat.lit 602 2) yi = true
    /\ PyFloat.leb yi (PyFloat.lit 112275 3) = true
    /\ PyFloat.ltb xi (PyFloat.of_int 0) = (x =? 0).
Proof.
  intros Hx Hy. rewrite (resolve_axes x y Hx Hy).
  exists (column_x x), (row_y y). split; [reflexivity|].
  pose proof (grid_forall _ axis_values_rounded x Hx) as Cx.
  pose proof (grid_forall _ axis_values_rounded y Hy) as Cy.
  cbv beta in Cx, Cy. rewrite !andb_true_iff in Cx, Cy.
  destruct Cx as [[[[[[_ _] X1] X2] _] _] X3].
  destruct Cy as [[[[[[_ _] _] _] Y1] Y2] _].
  repeat (split; [assumption|]). now apply eqb_prop.
Qed.

Lemma outputs_bounding_box_witness :
  exists xi yi,
    resolve 0 11 = Return (xi, yi, Z_HEIGHT)
    /\ PyFloat.leb (PyFloat.lit (-3256) 3) xi = true
    /\ PyFloat.leb xi (PyFloat.lit 114293 3) = true
    /\ PyFloat.leb (PyFloat.lit 602 2) yi = true
    /\ PyFloat.leb yi (PyFloat.lit 112275 3) = true
    /\ PyFloat.ltb xi (PyFloat.of_int 0) = true.
Proof.
  apply (outputs_bounding_box 0 11); lia.
Defined.

(** ** The two copies and the log *)

(** X8. For ints that can be turned into text (fewer than 4301 digits),
    whatever the log file holds and whether or not it can be written,
    [get_maze_coordinates] of [grid_images.py] returns or raises exactly
    what the copy in [testing.py] does.  For a longer int the two copies
    differ: [grid_images.py] raises the error of the conversion at its
    first statement and leaves the log as it was, where [testing.py]
    raises the range error. *)
Theorem copies_agree (x y : Z) (f : GridImages.log_file) :
  (Z.abs x < 10 ^ GridImages.int_max_str_digits ->
   Z.abs y < 10 ^ GridImages.int_max_str_digits ->
   fst (GridImages.get_maze_coordinates x y f)
   = Testing.get_maze_coordinates x y)
  /\ (10 ^ GridImages.int_max_str_digits <= Z.abs x
      \/ 10 ^ GridImages.int_max_str_digits <= Z.abs y ->
      GridImages.get_maze_coordinates x y f
      = (Raise GridImages.int_str_error, f)
      /\ Testing.get_maze_coordinates x y = Raise OutOfRange).
Proof.
  split.
  - intros Lx Ly. apply run_get_maze_coordinates; now apply str_fits_spec.
  - intros H. split.
    + apply run_over_limit, over_limit_not_fits, H.
    + apply testing_out_of_range, over_limit_out_of_range, H.
Qed.

Lemma copies_agree_witness :
  fst (GridImages.get_maze_coordinates 13 5 GridImages.new_log)
  = Testing.get_maze_coordinates 13 5
  /\ GridImages.get_maze_coordinates
       5 (- 10 ^ GridImages.int_max_str_digits) GridImages.new_log
     = (Raise GridImages.int_str_error, GridImages.new_log)
  /\ Testing.get_maze_coordinates 5 (- 10 ^ GridImages.int_max_str_digits)
     = Raise OutOfRange.
Proof.
  split.
  - apply (proj1 (copies_agree 13 5 GridImages.new_log));
      apply within_limit; lia.
  - apply (proj2 (copies_agree 5 (- 10 ^ GridImages.int_max_str_digits)
                    GridImages.new_log)).
    right. pose proof limit_above_100. lia.
Defined.

Ltac run_log :=
  unfold GridImages.bind, GridImages.log_message, GridImages.ret,
    GridImages.raise;
  change (negb GridImages.enable_logging) with false; cbv beta iota zeta.

Ltac log_cases W :=
  repeat (progress (cbn [fst snd GridImages.writable GridImages.entries];
                    try rewrite W));
  (split; [reflexivity|]); split; try discriminate; try (intros _; reflexivity).

(** X9. Logging only appends.  A call leaves an unwritable log as it was;
    to a writable log it adds the call, followed by the error line when
    the cell is off the lattice, by nothing when the cell is in the table,
    and by the computed triple otherwise.  The entries that were there
    stay in front.  This is for ints that can be turned into text; a
    longer int raises before anything is logged and the log is left as it
    was. *)
Theorem logged_call (x y : Z) (f : GridImages.log_file) :
  let out := GridImages.get_maze_coordinates x y f in
  GridImages.writable (snd out) = GridImages.writable f
  /\ (GridImages.writable f = false ->
      GridImages.entries (snd out) = GridImages.entries f)
  /\ (GridImages.writable f = true ->
      Z.abs x < 10 ^ GridImages.int_max_str_digits ->
      Z.abs y < 10 ^ GridImages.int_max_str_digits ->
      GridImages.entries (snd out)
      = GridImages.entries f
        ++ GridImages.MsgCalled x y
           :: match resolve x y with
              | Raise _ => [GridImages.MsgInvalid x y]
              | Return c =>
                  if is_reference_cell x y then []
                  else [GridImages.MsgCalculated x y c]
              end)
  /\ (10 ^ GridImages.int_max_str_digits <= Z.abs x
      \/ 10 ^ GridImages.int_max_str_digits <= Z.abs y ->
      out = (Raise GridImages.int_str_error, f)).
Proof.
  cbv zeta.
  destruct (GridImages.str_fits x && GridImages.str_fits y) eqn:F.
  2:{ rewrite (run_over_limit x y f F). cbn [fst snd].
      split; [reflexivity|]. split; [reflexivity|]. split; [|reflexivity].
      intros _ Lx Ly. apply str_fits_spec in Lx, Ly.
      rewrite Lx, Ly in F. discriminate F. }
  apply andb_true_iff in F as [Fx Fy].
  pose proof (proj1 (str_fits_spec x) Fx) as Lx.
  pose proof (proj1 (str_fits_spec y) Fy) as Ly.
  assert (Shape : forall P Q R : Prop,
             P /\ Q /\ (GridImages.writable f = true -> R) ->
             P /\ Q
             /\ (GridImages.writable f = true ->
                 Z.abs x < 10 ^ GridImages.int_max_str_digits ->
                 Z.abs y < 10 ^ GridImages.int_max_str_digits -> R)
             /\ (10 ^ GridImages.int_max_str_digits <= Z.abs x
                 \/ 10 ^ GridImages.int_max_str_digits <= Z.abs y ->
                 GridImages.get_maze_coordinates x y f
                 = (Raise GridImages.int_str_error, f))).
  { intros P Q R (HP & HQ & HR). repeat (split; trivial).
    - intros W _ _. now apply HR.
    - intros H. exfalso. lia. }
  apply Shape. clear Shape.
  destruct (negb ((0 <=? x) && (x <=? 12) && ((0 <=? y) && (y <=? 12))))
    eqn:G.
  - rewrite (resolve_out_of_range x y Lx Ly
               (proj1 (guard_out_of_range x y) G)).
    unfold GridImages.get_maze_coordinates. cbv zeta.
    rewrite !(log_ints_fits x y) by assumption. rewrite G.
    run_log. destruct (GridImages.writable f) eqn:W; log_cases W.
    intros _. now rewrite <- app_assoc.
  - assert (Hx : 0 <= x <= 12 /\ 0 <= y <= 12).
    { destruct (guard_out_of_range x y) as [_ Hg].
      destruct (Z_le_dec 0 x), (Z_le_dec x 12), (Z_le_dec 0 y),
        (Z_le_dec y 12); try lia;
        (rewrite Hg in G by lia; discriminate G). }
    destruct Hx as [Hx Hy].
    destruct (is_reference_cell x y) eqn:Hc.
    + destruct (reference_lookup x y Hc) as (xi & yi & Hin).
      rewrite (resolve_reference _ _ _ _ Hin).
      unfold GridImages.get_maze_coordinates. cbv zeta.
      rewrite !(log_ints_fits x y) by assumption. rewrite G.
      change (contains GridImages.reference_points (x, y))
        with (is_reference_cell x y).
      rewrite Hc.
      change GridImages.reference_points with reference_points.
      rewrite (in_getitem _ _ _ reference_points_NoDup Hin).
      run_log. destruct (GridImages.writable f) eqn:W; log_cases W.
    + rewrite (resolve_computed x y Hx Hy Hc).
      unfold GridImages.get_maze_coordinates. cbv zeta.
      rewrite !(log_ints_fits x y) by assumption. rewrite G.
      change (contains GridImages.reference_points (x, y))
        with (is_reference_cell x y).
      rewrite Hc.
      run_log. destruct (GridImages.writable f) eqn:W; log_cases W.
      intros _. now rewrite <- app_assoc.
Qed.

Lemma logged_call_witness :
  GridImages.entries
    (snd (GridImages.get_maze_coordinates 13 5
            {| GridImages.writable := false;
               GridImages.entries := [GridImages.MsgCalled 6 6] |}))
  = [GridImages.MsgCalled 6 6]
  /\ GridImages.entries
       (snd (GridImages.get_maze_coordinates 13 5
               {| GridImages.writable := true;
                  GridImages.entries := [GridImages.MsgCalled 6 6] |}))
     = [GridImages.MsgCalled 6 6]
       ++ GridImages.MsgCalled 13 5
          :: match resolve 13 5 with
             | Raise _ => [GridImages.MsgInvalid 13 5]
             | Return c =>
                 if is_reference_cell 13 5 then []
                 else [GridImages.MsgCalculated 13 5 c]
             end
  /\ GridImages.get_maze_coordinates
       (10 ^ GridImages.int_max_str_digits) 5 GridImages.new_log
     = (Raise GridImages.int_str_error, GridImages.new_log).
Proof.
  split; [|split].
  - apply (proj1 (proj2 (logged_call 13 5
             {| GridImages.writable := false;
                GridImages.entries := [GridImages.MsgCalled 6 6] |}))).
    reflexivity.
  - apply (proj1 (proj2 (proj2 (logged_call 13 5
             {| GridImages.writable := true;
                GridImages.entries := [GridImages.MsgCalled 6 6] |})))).
    + reflexivity.
    + apply within_limit; lia.
    + apply within_limit; lia.
  - apply (proj2 (proj2 (proj2 (logged_call
             (10 ^ GridImages.int_max_str_digits) 5 GridImages.new_log)))).
    left. pose proof limit_above_100. lia.
Defined.

(** ** The self-check of testing.py *)

(** X10. [verify_coordinates] runs to the end without an exception and
    prints one block per table entry, in table order; in every block the
    calculated triple is the reference triple. *)
Theorem verify_coordinates_passes :
  snd Verify.verify_coordinates = Return tt
  /\ map Verify.grid (fst Verify.verify_coordinates)
     = map fst Verify.reference_points
  /\ Forall (fun r => Verify.calculated r = Verify.reference r)
       (fst Verify.verify_coordinates).
Proof.
  vm_compute. split; [reflexivity|]. split; [reflexivity|].
  repeat (apply Forall_cons; [reflexivity|]). apply Forall_nil.
Qed.

Lemma SFcompare_refl (a : PyFloat.float) :
  SFcompare a a = Some Eq \/ SFcompare a a = None.
Proof.
  destruct a as [s| s| |s m e]; simpl; auto.
  - destruct s; auto.
  - rewrite Z.compare_refl.
    assert (R : Pos.compare_cont Eq m m = Eq) by apply Pos.compare_refl.
    rewrite R. destruct s; auto.
Qed.

(** ** Camera positions *)

Lemma axis_cm :
  forallb (fun a => forallb (fun b =>
    if a <? b
    then PyFloat.ltb (Capture.inches_to_cm (column_x a))
                     (Capture.inches_to_cm (column_x b))
         && negb (PyFloat.same (Capture.inches_to_cm (row_y a))
                               (Capture.inches_to_cm (row_y b)))
    else true) grid_range) grid_range = true.
Proof. vm_compute. reflexivity. Qed.

Lemma position_of_cell_axes (x y : Z) :
  0 <= x <= 12 -> 0 <= y <= 12 ->
  Capture.position_of_cell x y
  = Return (Capture.inches_to_cm (column_x x),
            Capture.inches_to_cm (row_y y),
            PyFloat.add (Capture.inches_to_cm Z_HEIGHT)
              Capture.EYE_HEIGHT_OFFSET).
Proof.
  intros Hx Hy. unfold Capture.position_of_cell.
  rewrite (resolve_axes x y Hx Hy). reflexivity.
Qed.

(** X11. A grid position gets a camera position exactly when it is on the
    lattice; off the lattice the resolver's error leaves the loop (the
    range error, for ints that can be turned into text, as are all ints
    that got past the log line before the call).  On the lattice the
    camera height is the same for every cell, 91.63557999999999 cm. *)
Theorem camera_height_constant (x y : Z) :
  (x < 0 \/ x > 12 \/ y < 0 \/ y > 12 ->
   Z.abs x < 10 ^ GridImages.int_max_str_digits ->
   Z.abs y < 10 ^ GridImages.int_max_str_digits ->
   Capture.position_of_cell x y = Raise OutOfRange)
  /\ (x < 0 \/ x > 12 \/ y < 0 \/ y > 12 ->
      exists e, Capture.position_of_cell x y = Raise e)
  /\ (0 <= x <= 12 -> 0 <= y <= 12 ->
      exists px py,
        Capture.position_of_cell x y
        = Return (px, py, PyFloat.lit 9163557999999999 14)).
Proof.
  split; [|split].
  - intros H Lx Ly. unfold Capture.position_of_cell.
    now rewrite (resolve_out_of_range x y Lx Ly H).
  - intros H. unfold Capture.position_of_cell.
    destruct (Z_lt_le_dec (Z.abs x) (10 ^ GridImages.int_max_str_digits))
      as [Lx|Lx];
      [|rewrite (resolve_over_limit x y (or_introl Lx)); eauto].
    destruct (Z_lt_le_dec (Z.abs y) (10 ^ GridImages.int_max_str_digits))
      as [Ly|Ly];
      [|rewrite (resolve_over_limit x y (or_intror Ly)); eauto].
    rewrite (resolve_out_of_range x y Lx Ly H). eauto.
  - intros Hx Hy. rewrite (position_of_cell_axes x y Hx Hy).
    exists (Capture.inches_to_cm (column_x x)), (Capture.inches_to_cm (row_y y)).
    replace (PyFloat.lit 9163557999999999 14)
      with (PyFloat.add (Capture.inches_to_cm Z_HEIGHT)
              Capture.EYE_HEIGHT_OFFSET)
      by (vm_compute; reflexivity).
    reflexivity.
Qed.

Lemma camera_height_constant_witness :
  Capture.position_of_cell 5 (-1) = Raise OutOfRange
  /\ exists px py,
       Capture.position_of_cell 3 4
       = Return (px, py, PyFloat.lit 9163557999999999 14).
Proof.
  split.
  - apply (proj1 (camera_height_constant 5 (-1)));
      try (apply within_limit; lia). lia.
  - apply (proj2 (proj2 (camera_height_constant 3 4))); lia.
Defined.

(** X12. The conversion to centimetres keeps cells apart: along a row the
    camera x strictly increases with the column, and two cells of the
    lattice with the same camera position are the same cell. *)
Theorem camera_positions_distinct (x y x' y' : Z) :
  0 <= x <= 12 -> 0 <= y <= 12 -> 0 <= x' <= 12 -> 0 <= y' <= 12 ->
  (x < x' ->
   exists p p',
     Capture.position_of_cell x y = Return p
     /\ Capture.position_of_cell x' y = Return p'
     /\ PyFloat.ltb (x_inches p) (x_inches p') = true)
  /\ (Capture.position_of_cell x y = Capture.position_of_cell x' y' ->
      x = x' /\ y = y').
Proof.
  intros Hx Hy Hx' Hy'. split.
  - intros L.
    rewrite (position_of_cell_axes x y Hx Hy),
      (position_of_cell_axes x' y Hx' Hy).
    eexists; eexists. split; [reflexivity|]. split; [reflexivity|].
    pose proof (grid_forall2 _ axis_cm x x' Hx Hx') as H. cbv beta in H.
    replace (x <? x') with true in H by (symmetry; apply Z.ltb_lt; lia).
    now apply andb_true_iff in H as [H _].
  - rewrite (position_of_cell_axes x y Hx Hy),
      (position_of_cell_axes x' y' Hx' Hy').
    intros E.
    assert (Ex : Capture.inches_to_cm (column_x x)
                 = Capture.inches_to_cm (column_x x')) by congruence.
    assert (Ey : Capture.inches_to_cm (row_y y)
                 = Capture.inches_to_cm (row_y y')) by congruence.
    split.
    + destruct (Z.lt_trichotomy x x') as [L|[L|L]]; [exfalso|exact L|exfalso].
      * pose proof (grid_forall2 _ axis_cm x x' Hx Hx') as H. cbv beta in H.
        replace (x <? x') with true in H by (symmetry; apply Z.ltb_lt; lia).
        apply andb_true_iff in H as [H _]. rewrite Ex in H.
        unfold PyFloat.ltb, SFltb in H.
        destruct (SFcompare_refl (Capture.inches_to_cm (column_x x'))) as [R|R];
          rewrite R in H; discriminate H.
      * pose proof (grid_forall2 _ axis_cm x' x Hx' Hx) as H. cbv beta in H.
        replace (x' <? x) with true in H by (symmetry; apply Z.ltb_lt; lia).
        apply andb_true_iff in H as [H _]. rewrite Ex in H.
        unfold PyFloat.ltb, SFltb in H.
        destruct (SFcompare_refl (Capture.inches_to_cm (column_x x'))) as [R|R];
          rewrite R in H; discriminate H.
    + destruct (Z.lt_trichotomy y y') as [L|[L|L]]; [exfalso|exact L|exfalso].
      * pose proof (grid_forall2 _ axis_cm y y' Hy Hy') as H. cbv beta in H.
        replace (y <? y') with true in H by (symmetry; apply Z.ltb_lt; lia).
        apply andb_true_iff in H as [_ H].
        rewrite Ey, same_refl in H. discriminate H.
      * pose proof (grid_forall2 _ axis_cm y' y Hy' Hy) as H. cbv beta in H.
        replace (y' <? y) with true in H by (symmetry; apply Z.ltb_lt; lia).
        apply andb_true_iff in H as [_ H].
        rewrite Ey, same_refl in H. discriminate H.
Qed.

Lemma camera_positions_distinct_witness :
  exists p p',
    Capture.position_of_cell 0 5 = Return p
    /\ Capture.position_of_cell 1 5 = Return p'
    /\ PyFloat.ltb (x_inches p) (x_inches p') = true.
Proof.
  apply (proj1 (camera_positions_distinct 0 5 1 5
                  ltac:(lia) ltac:(lia) ltac:(lia) ltac:(lia))).
  lia.
Defined.

(** ** The field of view *)

Lemma safe_fov_cases (v : Camera.number) :
  Camera.safe_fov v
  = if Camera.lt v (Camera.Int 150)
    then if Camera.gt v (Camera.Int 1) then v else Camera.Int 1
    else Camera.Int 150.
Proof.
  unfold Camera.safe_fov, Camera.min, Camera.max.
  destruct (Camera.lt v (Camera.Int 150)); reflexivity.
Qed.

Lemma safe_fov_int (z : Z) :
  Camera.safe_fov (Camera.Int z) = Camera.Int (Z.max 1 (Z.min 150 z)).
Proof.
  rewrite safe_fov_cases. unfold Camera.lt, Camera.gt, Camera.compare.
  destruct (Z.compare_spec z 150); destruct (Z.compare_spec z 1);
    f_equal; lia.
Qed.

(** X13. [safe_fov] clamps to [1, 150]: an int comes back as the nearest
    int of that range; a float comes back unchanged when it lies strictly
    between 1 and 150 and otherwise as the int 1 or 150; NaN and
    +infinity give 150, -infinity gives 1. *)
Theorem safe_fov_clamps :
  (forall z, Camera.safe_fov (Camera.Int z)
             = Camera.Int (Z.max 1 (Z.min 150 z)))
  /\ (forall f,
        Camera.safe_fov (Camera.Float f) = Camera.Int 1
        \/ Camera.safe_fov (Camera.Float f) = Camera.Int 150
        \/ (Camera.safe_fov (Camera.Float f) = Camera.Float f
            /\ Camera.gt (Camera.Float f) (Camera.Int 1) = true
            /\ Camera.lt (Camera.Float f) (Camera.Int 150) = true))
  /\ (forall f,
        Camera.gt (Camera.Float f) (Camera.Int 1) = true ->
        Camera.lt (Camera.Float f) (Camera.Int 150) = true ->
        Camera.safe_fov (Camera.Float f) = Camera.Float f)
  /\ Camera.safe_fov (Camera.Float S754_nan) = Camera.Int 150
  /\ Camera.safe_fov (Camera.Float (S754_infinity false)) = Camera.Int 150
  /\ Camera.safe_fov (Camera.Float (S754_infinity true)) = Camera.Int 1.
Proof.
  split; [exact safe_fov_int|]. split; [|split].
  - intros f. rewrite safe_fov_cases.
    destruct (Camera.lt (Camera.Float f) (Camera.Int 150)); [|tauto].
    destruct (Camera.gt (Camera.Float f) (Camera.Int 1)); tauto.
  - intros f G L. rewrite safe_fov_cases, L, G. reflexivity.
  - repeat split.
Qed.

Lemma safe_fov_clamps_witness :
  Camera.safe_fov (Camera.Float (PyFloat.lit 25 1))
  = Camera.Float (PyFloat.lit 25 1).
Proof.
  apply (proj1 (proj2 (proj2 safe_fov_clamps))); reflexivity.
Defined.

Lemma fov_range (k : Z) :
  1 <= k <= 150 -> In k (map Z.of_nat (seq 1 150)).
Proof.
  intros H. replace k with (Z.of_nat (Z.to_nat k)) by lia.
  apply in_map, in_seq. lia.
Qed.

Lemma radians_of_degrees :
  forallb (fun k =>
    PyFloat.leb (Camera.radians (Camera.Int 1)) (Camera.radians (Camera.Int k))
    && PyFloat.leb (Camera.radians (Camera.Int k))
         (Camera.radians (Camera.Int 150))
    && PyFloat.ltb (Camera.radians (Camera.Int k))
         (Camera.radians (Camera.Int (k + 1))))
    (map Z.of_nat (seq 1 150)) = true
  /\ PyFloat.ltb (PyFloat.of_int 0) (Camera.radians (Camera.Int 1)) = true
  /\ PyFloat.ltb (Camera.radians (Camera.Int 150)) Camera.pi = true.
Proof. vm_compute. repeat split. Qed.

(** X14. For an int field of view, whatever its value, the view angle
    given to the camera lies between [radians(1)] and [radians(150)],
    hence strictly between 0 and [pi]. *)
Theorem viewAngle_bounds (z : Z) :
  PyFloat.leb (Camera.radians (Camera.Int 1))
    (Camera.viewAngle (Camera.Int z)) = true
  /\ PyFloat.leb (Camera.viewAngle (Camera.Int z))
       (Camera.radians (Camera.Int 150)) = true
  /\ PyFloat.ltb (PyFloat.of_int 0) (Camera.radians (Camera.Int 1)) = true
  /\ PyFloat.ltb (Camera.radians (Camera.Int 150)) Camera.pi = true.
Proof.
  destruct radians_of_degrees as (H & H0 & Hpi).
  unfold Camera.viewAngle. rewrite safe_fov_int.
  rewrite forallb_forall in H.
  assert (R : 1 <= Z.max 1 (Z.min 150 z) <= 150) by lia.
  specialize (H (Z.max 1 (Z.min 150 z)) (fov_range _ R)).
  cbv beta in H. rewrite !andb_true_iff in H.
  split; [tauto|]. split; [tauto|]. split; assumption.
Qed.
